(** * DataAnalyzer (src/main.py): a shallow embedding and its properties

    The development follows the layout of [src/main.py].

    The model:
    - the data the program handles: cells, dtypes, columns, data frames, the
      dict [analyze] returns, Python exceptions, figures, and a file system
      of directories and files;
    - the services of the libraries the program calls (numpy's legacy random
      generator, the CSV parser of pandas, the plotting back end), gathered in
      the class [Environment]; their documented contracts are the laws of the
      class, everything else about them is left open;
    - the methods of [DataAnalyzer], written in a state-and-exception monad
      over the object ([self]) and the outside world (the files, the global
      state of the generator, the log).

    The properties: what each method returns, raises and leaves behind.

    Modelling decisions:
    - a path is the list of its components; [Path(...)] conversions are not
      modelled;
    - [describe()] is kept symbolic: the analysis records that the summary is
      the dict of [describe] on the frame, not its numbers;
    - a figure is the record of the calls made on its panels; [plt.style.use],
      [sns.set_palette] and [plt.close] leave no trace in the model;
    - [df[col]] is the first column labelled [col]; statements that relate it
      to a given column assume pairwise distinct labels ([unique_columns]),
      which holds of every frame [generate_sample_data] builds, and pandas'
      CSV reader renames repeated header fields;
    - the order of equally frequent values in [value_counts] is the model's
      own; no statement depends on it. *)

From stdpp Require Import gmap strings list fin_maps sorting.

From Stdlib Require Import ZArith QArith.

Local Open Scope Z_scope.

Local Open Scope string_scope.

Local Open Scope list_scope.

(** * The model *)

(** ** Python values and exceptions *)

(** The exception classes (all below [Exception]) that the modelled library
    calls raise. [except Exception] catches every one of them. *)
Inductive exn :=
  | FileNotFoundError
  | FileExistsError
  | PermissionError
  | IsADirectoryError
  | NotADirectoryError
  | ValueError
  | TypeError
  | ParserError
  | EmptyDataError
  | UnicodeDecodeError
  | OtherError (msg : string).

Inductive result (A : Type) :=
  | Ok (a : A)
  | Raise (e : exn).

Arguments Ok {A} a.

Arguments Raise {A} e.

(** ** Data frames *)

(** The dtypes of the columns the program meets: the ones [read_csv] infers,
    the ones [generate_sample_data] produces, and pandas' [category]. *)
Inductive dtype := int64 | float64 | bool_ | object_ | datetime64 | category.

(** A cell. A [float64] is its IEEE-754 bit pattern; a date is a day number
    counted from 1970-01-01; [VNone] stands for [None] and [NaT]. *)
Inductive value :=
  | VInt (z : Z)
  | VFloat (bits : Z)
  | VBool (b : bool)
  | VStr (s : string)
  | VDate (day : Z)
  | VNone.

Global Instance exn_eq_dec : EqDecision exn.
Proof. solve_decision. Defined.

Global Instance dtype_eq_dec : EqDecision dtype.
Proof. solve_decision. Defined.

Global Instance value_eq_dec : EqDecision value.
Proof. solve_decision. Defined.

(** NaN: exponent field all ones, fraction not zero. *)
Definition is_nan (bits : Z) : bool :=
  (Z.land (Z.shiftr bits 52) 2047 =? 2047)%Z && negb (Z.land bits (2 ^ 52 - 1) =? 0)%Z.

(** [Series.isnull], cell by cell. *)
Definition isnull (v : value) : bool :=
  match v with
  | VFloat bits => is_nan bits
  | VNone => true
  | _ => false
  end.

Record Column := {
  col_name : string;
  col_dtype : dtype;
  col_values : list value
}.

(** A data frame: the length of its row index and its columns in order. *)
Record DataFrame := {
  df_index : nat;
  df_data : list Column
}.

(** [pd.DataFrame()] *)
Definition empty_frame : DataFrame := {| df_index := 0; df_data := [] |}.

(** [pd.DataFrame(data)] for a dict of arrays: the arrays must agree in
    length, otherwise pandas raises [ValueError]. *)
Definition DataFrame_of_dict (data : list Column) : result DataFrame :=
  match data with
  | [] => Ok empty_frame
  | c :: _ =>
      let n := length (col_values c) in
      if forallb (λ c', Nat.eqb (length (col_values c')) n) data
      then Ok {| df_index := n; df_data := data |}
      else Raise ValueError
  end.

Definition shape (df : DataFrame) : nat * nat :=
  (df_index df, length (df_data df)).

(** [list(df.columns)] *)
Definition columns (df : DataFrame) : list string :=
  col_name <$> df_data df.

Definition unique_columns (df : DataFrame) : Prop :=
  NoDup (columns df).

(** [df[col]], as the list of the cells of the column labelled [col]. *)
Definition getitem (df : DataFrame) (col : string) : list value :=
  match list_find (λ c, col_name c = col) (df_data df) with
  | Some (_, c) => col_values c
  | None => []
  end.

(** The selectors [select_dtypes] is called with in [main.py]. *)
Inductive selector := np_number | sel_object | sel_category | sel_bool.

Definition selects (s : selector) (d : dtype) : bool :=
  match s, d with
  | np_number, (int64 | float64) => true
  | sel_object, object_ => true
  | sel_category, category => true
  | sel_bool, bool_ => true
  | _, _ => false
  end.

(** [df.select_dtypes(include=...)] *)
Definition select_dtypes (include : list selector) (df : DataFrame) : DataFrame :=
  {| df_index := df_index df;
     df_data := filter (λ c, existsb (λ s, selects s (col_dtype c)) include) (df_data df) |}.

(** Numeric columns: dtype [int64] or [float64]. *)
Definition is_numeric (c : Column) : bool := selects np_number (col_dtype c).

(** A Python dict built by assigning the keys in order. *)
Definition to_dict {A B} (key : A → string) (val : A → B) (l : list A) : gmap string B :=
  foldl (λ m a, <[key a := val a]> m) ∅ l.

(** [df.dtypes.to_dict()] *)
Definition dtypes (df : DataFrame) : gmap string dtype :=
  to_dict col_name col_dtype (df_data df).

(** [df.isnull().sum().to_dict()] *)
Definition missing_values (df : DataFrame) : gmap string nat :=
  to_dict col_name (λ c, length (filter (λ v, isnull v = true) (col_values c))) (df_data df).

(** Number of cells of [vs] equal to [v]. *)
Definition occurrences (v : value) (vs : list value) : nat :=
  length (filter (λ x, x = v) vs).

(** The order of the rows of [value_counts]: by decreasing frequency. *)
Definition more_frequent (x y : value * nat) : Prop := (y.2 ≤ x.2)%nat.

Global Instance more_frequent_dec : RelDecision more_frequent.
Proof. intros x y. unfold more_frequent. apply _. Defined.

(** [Series.value_counts().to_dict()]: missing cells are dropped, the
    remaining distinct values are listed by decreasing frequency. *)
Definition value_counts (vs : list value) : list (value * nat) :=
  merge_sort more_frequent
    ((λ v, (v, occurrences v vs)) <$> remove_dups (filter (λ v, isnull v = false) vs)).

(** ** The result of [analyze] *)

(** [numeric_summary]: either the literal [{}] or the dict of
    [df.describe()], kept as the call it comes from. *)
Inductive summary :=
  | EmptyDict
  | Describe (df : DataFrame).

(** The values stored under the keys of the dict [analyze] returns. *)
Inductive entry :=
  | Shape (sh : nat * nat)
  | Columns (names : list string)
  | Dtypes (m : gmap string dtype)
  | MissingValues (m : gmap string nat)
  | NumericSummary (s : summary)
  | CategoricalSummary (m : gmap string (list (value * nat))).

(** Lines 79-89: the dict literal of [analyze], for the frame in [self.data]. *)
Definition analysis_of (df : DataFrame) : gmap string entry :=
  <["categorical_summary" :=
      CategoricalSummary
        (to_dict id (λ col, value_counts (getitem df col))
           (columns (select_dtypes [sel_object; sel_category] df)))]>
  (<["numeric_summary" :=
      NumericSummary
        (if decide (0 < length (columns (select_dtypes [np_number] df)))%nat
         then Describe df else EmptyDict)]>
  (<["missing_values" := MissingValues (missing_values df)]>
  (<["dtypes" := Dtypes (dtypes df)]>
  (<["columns" := Columns (columns df)]>
  (<["shape" := Shape (shape df)]> ∅))))).

(** ** Figures and the file system *)

Inductive Plot :=
  | Hist (xs : list value) (bins : nat)
  | Bar (counts : list (value * nat)).

Record Axes := {
  ax_plot : option Plot;
  ax_title : string;
  ax_xlabel : string;
  ax_ylabel : string;
  ax_xtick_rotation : Z
}.

Definition blank_axes : Axes :=
  {| ax_plot := None; ax_title := EmptyString; ax_xlabel := EmptyString;
     ax_ylabel := EmptyString;
     ax_xtick_rotation := 0 |}.

Definition set_plot (p : Plot) (a : Axes) : Axes :=
  {| ax_plot := Some p; ax_title := ax_title a; ax_xlabel := ax_xlabel a;
     ax_ylabel := ax_ylabel a; ax_xtick_rotation := ax_xtick_rotation a |}.

Definition set_title (t : string) (a : Axes) : Axes :=
  {| ax_plot := ax_plot a; ax_title := t; ax_xlabel := ax_xlabel a;
     ax_ylabel := ax_ylabel a; ax_xtick_rotation := ax_xtick_rotation a |}.

Definition set_xlabel (t : string) (a : Axes) : Axes :=
  {| ax_plot := ax_plot a; ax_title := ax_title a; ax_xlabel := t;
     ax_ylabel := ax_ylabel a; ax_xtick_rotation := ax_xtick_rotation a |}.

Definition set_ylabel (t : string) (a : Axes) : Axes :=
  {| ax_plot := ax_plot a; ax_title := ax_title a; ax_xlabel := ax_xlabel a;
     ax_ylabel := t; ax_xtick_rotation := ax_xtick_rotation a |}.

Definition tick_params_x (rotation : Z) (a : Axes) : Axes :=
  {| ax_plot := ax_plot a; ax_title := ax_title a; ax_xlabel := ax_xlabel a;
     ax_ylabel := ax_ylabel a; ax_xtick_rotation := rotation |}.

Record Figure := {
  fig_size : Z * Z;
  fig_axes : list Axes;
  fig_tight : bool
}.

(** [plt.subplots(1, ncols, figsize=...)]: one row of blank panels. Whether
    pyplot hands back one panel or an array (lines 111-112, 129-130), the
    program indexes them as a list. *)
Definition subplots (ncols : nat) (figsize : Z * Z) : Figure :=
  {| fig_size := figsize; fig_axes := replicate ncols blank_axes; fig_tight := false |}.

Definition with_axes (axes : list Axes) (fig : Figure) : Figure :=
  {| fig_size := fig_size fig; fig_axes := axes; fig_tight := fig_tight fig |}.

(** [plt.tight_layout()] *)
Definition tight_layout (fig : Figure) : Figure :=
  {| fig_size := fig_size fig; fig_axes := fig_axes fig; fig_tight := true |}.

(** What a file holds: text, or a figure saved by [plt.savefig]. *)
Inductive content :=
  | Text (s : string)
  | Image (fig : Figure) (dpi : nat) (bbox_inches : string).

Inductive node :=
  | Dir (writable : bool)
  | File (c : content).

(** A path is the list of its components below the working directory. *)
Definition path := list string.

(** [p / name] *)
Definition joinpath (p : path) (name : string) : path := (p ++ [name])%list.

(** [p.parent] *)
Definition parent (p : path) : path := take (length p - 1) p.

(** [Path.mkdir(exist_ok=True)] (so [parents=False]): an existing directory
    is left alone; anything else at the path is [FileExistsError]; a new
    directory needs its parent to exist, to be a directory and to be
    writable. *)
Definition mkdir_exist_ok (p : path) (fs : gmap path node) : result (gmap path node) :=
  match fs !! p with
  | Some (Dir _) => Ok fs
  | Some (File _) => Raise FileExistsError
  | None =>
      match fs !! parent p with
      | Some (Dir true) => Ok (<[p := Dir true]> fs)
      | Some (Dir false) => Raise PermissionError
      | Some (File _) => Raise NotADirectoryError
      | None => Raise FileNotFoundError
      end
  end.

(** Writing a file: an existing file is replaced, a new one needs a writable
    parent directory. *)
Definition write_file (p : path) (c : content) (fs : gmap path node) : result (gmap path node) :=
  match fs !! p with
  | Some (Dir _) => Raise IsADirectoryError
  | Some (File _) => Ok (<[p := File c]> fs)
  | None =>
      match fs !! parent p with
      | Some (Dir true) => Ok (<[p := File c]> fs)
      | Some (Dir false) => Raise PermissionError
      | Some (File _) => Raise NotADirectoryError
      | None => Raise FileNotFoundError
      end
  end.

(** ** The libraries *)

(** What the program needs from numpy, pandas and matplotlib.

    - [rng_seed], [rng_choice], [rng_normal]: numpy's global legacy generator.
      [rng_choice k p n] draws [n] positions in a population of [k] items,
      uniformly or with the weights [p]; [rng_normal loc scale n] draws [n]
      doubles. The laws are numpy's contract: the sample has the size asked
      for, positions fall inside the population, normal deviates are never
      NaN.
    - [parse_csv]: the parser behind [pd.read_csv], which may raise.
    - [plot_error]: the verdict of the plotting back end on a request;
      [None] means the plot is drawn. *)
Class Environment := {
  rng_state : Type;
  rng_seed : Z → rng_state;
  rng_choice : nat → option (list Q) → nat → rng_state → list nat * rng_state;
  rng_normal : Z → Z → nat → rng_state → list Z * rng_state;
  parse_csv : content → result DataFrame;
  plot_error : Plot → option exn;
  rng_choice_length k p n st : length (rng_choice k p n st).1 = n;
  rng_choice_range k p n st :
    (0 < k)%nat → (∀ ps, p = Some ps → length ps = k) →
    Forall (λ i, (i < k)%nat) (rng_choice k p n st).1;
  rng_normal_length loc scale n st : length (rng_normal loc scale n st).1 = n;
  rng_normal_not_nan loc scale n st :
    Forall (λ bits, is_nan bits = false) (rng_normal loc scale n st).1
}.

(** ** The object, the world and the monad of the methods *)

(** [self]: the two attributes [__init__] sets. *)
Record DataAnalyzer := {
  data_path : path;
  data : option DataFrame
}.

(** [DataAnalyzer(data_path)] *)
Definition init (data_path : path) : DataAnalyzer :=
  {| data_path := data_path; data := None |}.

Inductive level := INFO | WARNING | ERROR.

(** The messages the program logs, with the values they interpolate. *)
Inductive message :=
  | DadosCarregados (sh : nat * nat)
  | ArquivoNaoEncontrado
  | ErroAoCarregar (e : exn)
  | DadosDeExemploGerados (sh : nat * nat)
  | VisualizacoesSalvas (p : path).

Section methods.
Context `{Env : Environment}.

Record World := {
  fs : gmap path node;
  np_random : rng_state;
  log : list (level * message)
}.

Definition State : Type := DataAnalyzer * World.

(** A method runs from a state to a returned value or a raised exception,
    and a new state. *)
Definition M (A : Type) : Type := State → result A * State.

Definition ret {A} (a : A) : M A := λ s, (Ok a, s).

Definition raise {A} (e : exn) : M A := λ s, (Raise e, s).

Definition bind {A B} (m : M A) (k : A → M B) : M B :=
  λ s, match m s with
       | (Ok a, s') => k a s'
       | (Raise e, s') => (Raise e, s')
       end.

(** [try: m  except Exception as e: h e] *)
Definition try_except {A} (m : M A) (h : exn → M A) : M A :=
  λ s, match m s with
       | (Ok a, s') => (Ok a, s')
       | (Raise e, s') => h e s'
       end.

Definition lift {A} (r : result A) : M A := λ s, (r, s).

Definition get_self : M DataAnalyzer := λ s, (Ok s.1, s).

Definition get_world : M World := λ s, (Ok s.2, s).

(** [self.data = df] *)
Definition set_data (df : DataFrame) : M unit :=
  λ s, (Ok tt, ({| data_path := data_path s.1; data := Some df |}, s.2)).

Definition put_fs (fs' : gmap path node) : M unit :=
  λ s, (Ok tt, (s.1, {| fs := fs'; np_random := np_random s.2; log := log s.2 |})).

Definition put_np_random (st : rng_state) : M unit :=
  λ s, (Ok tt, (s.1, {| fs := fs s.2; np_random := st; log := log s.2 |})).

(** [logger.info], [logger.warning], [logger.error] *)
Definition logger (l : level) (msg : message) : M unit :=
  λ s, (Ok tt, (s.1, {| fs := fs s.2; np_random := np_random s.2;
                        log := (log s.2 ++ [(l, msg)])%list |})).

End methods.

Declare Scope py_scope.

Delimit Scope py_scope with py.

Notation "x <- y ;; z" := (bind y (λ x, z))
  (at level 20, y at level 99, z at level 200, only parsing) : py_scope.

Notation "x ;; z" := (bind x (λ _, z))
  (at level 100, z at level 200, only parsing, right associativity) : py_scope.

Local Open Scope py_scope.

(** ** The class [DataAnalyzer] *)

Section DataAnalyzer.
Context `{Env : Environment}.

(** *** Library calls, as steps of the monad *)

(** [self.data_path.exists()] *)
Definition path_exists (p : path) : M bool :=
  w <- get_world ;; ret (bool_decide (is_Some (fs w !! p))).

(** [pd.read_csv(p)] *)
Definition read_csv (p : path) : M DataFrame :=
  w <- get_world ;;
  match fs w !! p with
  | Some (File c) => lift (parse_csv c)
  | Some (Dir _) => raise IsADirectoryError
  | None => raise FileNotFoundError
  end.

(** [np.random.seed(s)] *)
Definition np_random_seed (s : Z) : M unit :=
  put_np_random (rng_seed s).

(** [np.random.choice(a, size, p=p)] *)
Definition np_random_choice {A} (a : list A) (size : nat) (p : option (list Q)) : M (list A) :=
  w <- get_world ;;
  let '(idx, st) := rng_choice (length a) p size (np_random w) in
  put_np_random st ;;
  ret (omap (λ i, a !! i) idx).

(** [np.random.normal(loc, scale, size)] *)
Definition np_random_normal (loc scale : Z) (size : nat) : M (list Z) :=
  w <- get_world ;;
  let '(xs, st) := rng_normal loc scale size (np_random w) in
  put_np_random st ;;
  ret xs.

(** [range(lo, hi)] *)
Definition range (lo hi : Z) : list Z := seqZ lo (hi - lo).

(** Day number of 2023-01-01. *)
Definition date_2023_01_01 : Z := 19358.

(** [pd.date_range(start, periods=n, freq='D')] *)
Definition date_range (start : Z) (periods : nat) : list Z :=
  seqZ start (Z.of_nat periods).

(** [save_dir.mkdir(exist_ok=True)] *)
Definition mkdir (p : path) : M unit :=
  w <- get_world ;; fs' <- lift (mkdir_exist_ok p (fs w)) ;; put_fs fs'.

(** [plt.savefig(p, dpi=dpi, bbox_inches=bbox)] of the figure at hand. *)
Definition savefig (fig : Figure) (p : path) (dpi : nat) (bbox : string) : M unit :=
  w <- get_world ;; fs' <- lift (write_file p (Image fig dpi bbox) (fs w)) ;; put_fs fs'.

(** Drawing on panel [i]: the back end may refuse the plot. *)
Definition draw (p : Plot) (i : nat) (axes : list Axes) : M (list Axes) :=
  match plot_error p with
  | Some e => raise e
  | None => ret (alter (set_plot p) i axes)
  end.

(** [for x in l: body], the body updating the local [s]. *)
Fixpoint for_each {A S} (l : list A) (body : A → S → M S) (s : S) : M S :=
  match l with
  | [] => ret s
  | a :: l' => s' <- body a s ;; for_each l' body s'
  end.

(** [enumerate(l)], counting from [i]. *)
Fixpoint enumerate_from {A} (i : nat) (l : list A) : list (nat * A) :=
  match l with
  | [] => []
  | a :: l' => (i, a) :: enumerate_from (S i) l'
  end.

Definition enumerate {A} (l : list A) : list (nat * A) := enumerate_from 0 l.

(** *** The methods *)

(** Lines 49-68. The dict [data] is built entry by entry, so the generator
    is consulted for [categoria], then [valor], then [ativo]. *)
Definition generate_sample_data : M DataFrame :=
  np_random_seed 42 ;;
  let n_samples := 1000%nat in
  let id_ := range 1 (Z.of_nat n_samples + 1) in
  categoria <- np_random_choice ["A"; "B"; "C"; "D"] n_samples None ;;
  valor <- np_random_normal 100 25 n_samples ;;
  let data_ := date_range date_2023_01_01 n_samples in
  ativo <- np_random_choice [true; false] n_samples (Some [7 # 10; 3 # 10]%Q) ;;
  df <- lift (DataFrame_of_dict
    [ {| col_name := "id"; col_dtype := int64; col_values := VInt <$> id_ |};
      {| col_name := "categoria"; col_dtype := object_; col_values := VStr <$> categoria |};
      {| col_name := "valor"; col_dtype := float64; col_values := VFloat <$> valor |};
      {| col_name := "data"; col_dtype := datetime64; col_values := VDate <$> data_ |};
      {| col_name := "ativo"; col_dtype := bool_; col_values := VBool <$> ativo |} ]) ;;
  set_data df ;;
  logger INFO (DadosDeExemploGerados (shape df)) ;;
  ret df.

(** Lines 31-47. *)
Definition load_data : M DataFrame :=
  try_except
    (self <- get_self ;;
     b <- path_exists (data_path self) ;;
     if b : bool then
       df <- read_csv (data_path self) ;;
       set_data df ;;
       logger INFO (DadosCarregados (shape df)) ;;
       ret df
     else
       logger WARNING ArquivoNaoEncontrado ;;
       generate_sample_data)
    (λ e,
       logger ERROR (ErroAoCarregar e) ;;
       generate_sample_data).

(** Lines 76-77 and 97-98: [if self.data is None: self.load_data()]. *)
Definition ensure_data : M unit :=
  self <- get_self ;;
  match data self with
  | None => load_data ;; ret tt
  | Some _ => ret tt
  end.

(** [self.data] where the program goes on to use it as a frame; on [None]
    Python raises at the first attribute access. *)
Definition the_data : M DataFrame :=
  self <- get_self ;;
  match data self with
  | Some df => ret df
  | None => raise (OtherError "AttributeError")
  end.

(** Lines 70-89. *)
Definition analyze : M (gmap string entry) :=
  ensure_data ;;
  df <- the_data ;;
  ret (analysis_of df).

(** Lines 114-119: the panel of one numeric column. *)
Definition plot_numeric (df : DataFrame) (ic : nat * string) (axes : list Axes) : M (list Axes) :=
  let '(i, col) := ic in
  if decide (col ≠ "id") then
    axes <- draw (Hist (getitem df col) 30) i axes ;;
    let axes := alter (set_title ("Distribuição de " +:+ col)) i axes in
    let axes := alter (set_xlabel col) i axes in
    let axes := alter (set_ylabel "Frequência") i axes in
    ret axes
  else ret axes.

(** Lines 132-137: the panel of one categorical column. *)
Definition plot_categorical (df : DataFrame) (ic : nat * string) (axes : list Axes) : M (list Axes) :=
  let '(i, col) := ic in
  axes <- draw (Bar (value_counts (getitem df col))) i axes ;;
  let axes := alter (set_title ("Contagem de " +:+ col)) i axes in
  let axes := alter (set_xlabel col) i axes in
  let axes := alter (set_ylabel "Contagem") i axes in
  let axes := alter (tick_params_x 45) i axes in
  ret axes.

(** Lines 107-123. *)
Definition plot_distributions (df : DataFrame) (save_dir : path) : M unit :=
  let numeric_cols := columns (select_dtypes [np_number] df) in
  if decide (0 < length numeric_cols)%nat then
    let fig := subplots (length numeric_cols) (15, 5) in
    axes <- for_each (enumerate numeric_cols) (plot_numeric df) (fig_axes fig) ;;
    let fig := tight_layout (with_axes axes fig) in
    savefig fig (joinpath save_dir "distribuicoes.png") 300 "tight"
  else ret tt.

(** Lines 125-141. *)
Definition plot_categories (df : DataFrame) (save_dir : path) : M unit :=
  let categorical_cols := columns (select_dtypes [sel_object; sel_category; sel_bool] df) in
  if decide (0 < length categorical_cols)%nat then
    let fig := subplots (length categorical_cols) (15, 5) in
    axes <- for_each (enumerate categorical_cols) (plot_categorical df) (fig_axes fig) ;;
    let fig := tight_layout (with_axes axes fig) in
    savefig fig (joinpath save_dir "categoricas.png") 300 "tight"
  else ret tt.

(** Lines 91-143. *)
Definition create_visualizations (save_path : path) : M unit :=
  ensure_data ;;
  let save_dir := save_path in
  mkdir save_dir ;;
  df <- the_data ;;
  plot_distributions df save_dir ;;
  plot_categories df save_dir ;;
  logger INFO (VisualizacoesSalvas save_dir).

End DataAnalyzer.

(** ** [main] *)

(** What [main] itself emits, in program order: its two log lines and the
    lines it prints. *)
Inductive emitted :=
  | LogInfo (text : string)
  | PrintLine (text : string)
  | PrintEntry (label : string) (e : entry).

Section main.
Context `{Env : Environment}.

(** A step of [main]: as in [M], and the lines emitted by the step. *)
Definition Main (A : Type) : Type := State → result A * State * list emitted.

Definition main_ret {A} (a : A) : Main A := λ s, (Ok a, s, []).

Definition main_raise {A} (e : exn) : Main A := λ s, (Raise e, s, []).

Definition main_bind {A B} (m : Main A) (k : A → Main B) : Main B :=
  λ s, match m s with
       | (Ok a, s', out) => let '(r, s'', out') := k a s' in (r, s'', out ++ out')
       | (Raise e, s', out) => (Raise e, s', out)
       end.

(** A call of a method of the analyzer. *)
Definition call {A} (m : M A) : Main A :=
  λ s, let '(r, s') := m s in (r, s', []).

Definition emit (e : emitted) : Main unit := λ s, (Ok tt, s, [e]).

(** [analysis_results[key]]: a missing key is a [KeyError]. *)
Definition subscript (d : gmap string entry) (key : string) : Main entry :=
  match d !! key with
  | Some e => main_ret e
  | None => main_raise (OtherError "KeyError")
  end.

End main.

Declare Scope main_scope.

Delimit Scope main_scope with main.

Notation "x <- y ;; z" := (main_bind y (λ x, z))
  (at level 20, y at level 99, z at level 200, only parsing) : main_scope.

Notation "x ;; z" := (main_bind x (λ _, z))
  (at level 100, z at level 200, only parsing, right associativity) : main_scope.

Section main_function.
Context `{Env : Environment}.

(** The defaults of [__init__] and of [create_visualizations]. *)
Definition default_data_path : path := ["data"; "sample_data.csv"].

Definition default_save_path : path := ["plots"].

(** Lines 146-168, run in the world [w]. The analyzer [main] creates with
    [DataAnalyzer()] is the object of the state the steps run in; the state
    returned holds it as [main] leaves it. *)
Definition main (w : World) : result (gmap string entry) * State * list emitted :=
  (emit (LogInfo "Iniciando análise de dados...") ;;
   data <- call load_data ;;
   analysis_results <- call analyze ;;
   emit (PrintLine (String (Ascii.ascii_of_nat 10) "=== RESULTADO DA ANÁLISE ===")) ;;
   sh <- subscript analysis_results "shape" ;;
   emit (PrintEntry "Formato dos dados: " sh) ;;
   cols <- subscript analysis_results "columns" ;;
   emit (PrintEntry "Colunas: " cols) ;;
   missing <- subscript analysis_results "missing_values" ;;
   emit (PrintEntry "Valores ausentes: " missing) ;;
   call (create_visualizations default_save_path) ;;
   emit (LogInfo "Análise concluída com sucesso!") ;;
   main_ret analysis_results)%main
  (init default_data_path, w).

End main_function.

(** ** Notions used in the statements *)

(** The numeric and the categorical selection of lines 108 and 126. *)
Definition numeric_cols (df : DataFrame) : list string :=
  columns (select_dtypes [np_number] df).

Definition categorical_cols (df : DataFrame) : list string :=
  columns (select_dtypes [sel_object; sel_category; sel_bool] df).

(** The plot requested for a numeric column: none for [id]. *)
Definition numeric_request (df : DataFrame) (col : string) : option Plot :=
  if decide (col ≠ "id") then Some (Hist (getitem df col) 30) else None.

(** The finished panel of a numeric column: [id] keeps its blank panel. *)
Definition numeric_panel (df : DataFrame) (col : string) : Axes :=
  if decide (col ≠ "id") then
    {| ax_plot := Some (Hist (getitem df col) 30);
       ax_title := "Distribuição de " +:+ col;
       ax_xlabel := col; ax_ylabel := "Frequência"; ax_xtick_rotation := 0 |}
  else blank_axes.

Definition categorical_request (df : DataFrame) (col : string) : option Plot :=
  Some (Bar (value_counts (getitem df col))).

Definition categorical_panel (df : DataFrame) (col : string) : Axes :=
  {| ax_plot := Some (Bar (value_counts (getitem df col)));
     ax_title := "Contagem de " +:+ col;
     ax_xlabel := col; ax_ylabel := "Contagem"; ax_xtick_rotation := 45 |}.

(** The figure saved for a list of finished panels. *)
Definition saved_figure (panels : list Axes) : Figure :=
  {| fig_size := (15, 5); fig_axes := panels; fig_tight := true |}.

(** The directory can be used: it is a writable directory, or it is absent
    and its parent is a writable directory; and no directory sits where an
    image goes. *)
Definition can_save (save_dir : path) (files : gmap path node) : Prop :=
  (files !! save_dir = Some (Dir true)
   ∨ (files !! save_dir = None ∧ files !! parent save_dir = Some (Dir true)))
  ∧ ∀ name b, files !! joinpath save_dir name ≠ Some (Dir b).

Section notions.
Context `{Env : Environment}.

(** The state after one more log line. *)
Definition logged (l : level) (msg : message) (s : State) : State :=
  (logger l msg s).2.

(** The object holding the table [df]. *)
Definition holding (p : path) (df : DataFrame) : DataAnalyzer :=
  {| data_path := p; data := Some df |}.

(** The first request the back end refuses, if any. *)
Fixpoint first_error (reqs : list (option Plot)) : option exn :=
  match reqs with
  | [] => None
  | None :: reqs' => first_error reqs'
  | Some p :: reqs' =>
      match plot_error p with
      | Some e => Some e
      | None => first_error reqs'
      end
  end.

(** A loop body that fills the blank panel at its index, after asking the
    back end for the plot it requests. *)
Definition fills_panel (body : nat * string → list Axes → M (list Axes))
    (request : string → option Plot) (panel : string → Axes) : Prop :=
  ∀ (pre post : list Axes) (col : string) (s : State),
    body (length pre, col) (pre ++ blank_axes :: post) s =
      (match first_error [request col] with
       | Some e => Raise e
       | None => Ok (pre ++ panel col :: post)
       end, s).

(** One plot group (lines 107-123 or 125-141), as a function: nothing for
    an empty selection; otherwise the panels are drawn and the figure is
    saved under [name]. *)
Definition plot_group (cols : list string) (request : string → option Plot)
    (panel : string → Axes) (save_dir : path) (name : string) : M unit :=
  λ s, match cols with
       | [] => (Ok tt, s)
       | _ :: _ =>
           match first_error (request <$> cols) with
           | Some e => (Raise e, s)
           | None => savefig (saved_figure (panel <$> cols)) (joinpath save_dir name) 300 "tight" s
           end
       end.

(** The files of one plot group. *)
Definition write_group (cols : list string) (request : string → option Plot)
    (panel : string → Axes) (save_dir : path) (name : string)
    (files : gmap path node) : result (gmap path node) :=
  match cols with
  | [] => Ok files
  | _ :: _ =>
      match first_error (request <$> cols) with
      | Some e => Raise e
      | None =>
          write_file (joinpath save_dir name)
            (Image (saved_figure (panel <$> cols)) 300 "tight") files
      end
  end.

(** The files [create_visualizations] leaves, step by step: the directory,
    the first image, the second image. A step that raises ends the run and
    keeps what the earlier steps wrote. *)
Definition render_files (df : DataFrame) (save_dir : path) (files : gmap path node)
    : result unit * gmap path node :=
  match mkdir_exist_ok save_dir files with
  | Raise e => (Raise e, files)
  | Ok files1 =>
      match write_group (numeric_cols df) (numeric_request df) (numeric_panel df)
              save_dir "distribuicoes.png" files1 with
      | Raise e => (Raise e, files1)
      | Ok files2 =>
          match write_group (categorical_cols df) (categorical_request df)
                  (categorical_panel df) save_dir "categoricas.png" files2 with
          | Raise e => (Raise e, files2)
          | Ok files3 => (Ok tt, files3)
          end
      end
  end.

(** The back end draws every plot the table asks for. *)
Definition backend_accepts (df : DataFrame) : Prop :=
  first_error (numeric_request df <$> numeric_cols df) = None
  ∧ first_error (categorical_request df <$> categorical_cols df) = None.

End notions.

(** ** Further notions *)

(** Every column is as long as the row index. *)
Definition well_formed (df : DataFrame) : Prop :=
  Forall (λ c, length (col_values c) = df_index df) (df_data df).

(** Number of missing cells of a column. *)
Definition count_missing (vs : list value) : nat :=
  length (filter (λ v, isnull v = true) vs).

(** Number of cells of a column that are not missing. *)
Definition count_present (vs : list value) : nat :=
  length (filter (λ v, isnull v = false) vs).


(** What [main] prints for the table [df]. *)
Definition report (df : DataFrame) : list emitted :=
  [ PrintLine (String (Ascii.ascii_of_nat 10) "=== RESULTADO DA ANÁLISE ===");
    PrintEntry "Formato dos dados: " (Shape (shape df));
    PrintEntry "Colunas: " (Columns (columns df));
    PrintEntry "Valores ausentes: " (MissingValues (missing_values df)) ].

(** A node is an image file. *)
Definition is_image (n : option node) : bool :=
  match n with
  | Some (File (Image _ _ _)) => true
  | _ => false
  end.

Section further_notions.
Context `{Env : Environment}.


(** The lines a run of a method added to the log. *)
Definition new_log (before after : State) : list (level * message) :=
  drop (length (log before.2)) (log after.2).

End further_notions.

(** ** A concrete environment *)

(** A small generator, a small CSV reader and a back end, to run the methods:
    a linear congruential generator stands for numpy's, fields are read as
    text, and the back end refuses an empty bar chart ("no numeric data to
    plot"). The properties below hold for every environment; this one
    serves to evaluate the model. *)

Definition lcg_next (st : Z) : Z := (1103515245 * st + 12345) mod 2147483648.

Fixpoint lcg_draws (n : nat) (st : Z) : list Z * Z :=
  match n with
  | O => ([], st)
  | S n' =>
      let st' := lcg_next st in
      let '(us, st'') := lcg_draws n' st' in
      (st' :: us, st'')
  end.

(** The first position whose cumulated weight exceeds [r]. *)
Fixpoint weighted_index (ps : list Q) (r : Q) : nat :=
  match ps with
  | [] => 0
  | p :: ps' => if Qle_bool p r then S (weighted_index ps' (r - p)%Q) else 0
  end.

Definition lcg_pick (k : nat) (p : option (list Q)) (u : Z) : nat :=
  match p with
  | None => Z.to_nat ((u / 65536) mod Z.of_nat k)
  | Some ps => Nat.min (k - 1) (weighted_index ps (((u / 65536) mod 1000) # 1000)%Q)
  end.

Definition lcg_choice (k : nat) (p : option (list Q)) (n : nat) (st : Z) : list nat * Z :=
  let '(us, st') := lcg_draws n st in (lcg_pick k p <$> us, st').

(** Doubles between 100 and 102: the bit pattern of 100.0 plus a draw in the
    low bits of the fraction. *)
Definition lcg_normal (loc scale : Z) (n : nat) (st : Z) : list Z * Z :=
  let '(us, st') := lcg_draws n st in ((λ u, 4636737291354636288 + u * 65536) <$> us, st').

Fixpoint split_on (sep : Ascii.ascii) (s : string) : list string :=
  match s with
  | EmptyString => [EmptyString]
  | String c s' =>
      if decide (c = sep) then EmptyString :: split_on sep s'
      else match split_on sep s' with
           | [] => [String c EmptyString]
           | w :: ws => String c w :: ws
           end
  end.

(** Header line, then one line per row; every field is kept as text. *)
Definition simple_csv (c : content) : result DataFrame :=
  match c with
  | Image _ _ _ => Raise UnicodeDecodeError
  | Text s =>
      match filter (λ l, l ≠ EmptyString) (split_on (Ascii.ascii_of_nat 10) s) with
      | [] => Raise EmptyDataError
      | header :: lines =>
          let names := split_on (Ascii.ascii_of_nat 44) header in
          let rows := split_on (Ascii.ascii_of_nat 44) <$> lines in
          if forallb (λ row, Nat.eqb (length row) (length names)) rows then
            Ok {| df_index := length rows;
                  df_data := imap (λ j name,
                    {| col_name := name; col_dtype := object_;
                       col_values := (λ row, VStr (default EmptyString (row !! j))) <$> rows |}) names |}
          else Raise ParserError
      end
  end.

Definition refuse_empty_bar (p : Plot) : option exn :=
  match p with
  | Bar [] => Some TypeError
  | _ => None
  end.

(** The environment; its laws are checked on the spot. *)
Definition lcg_env : Environment.
Proof.
  assert (Hlength : ∀ n st, length (lcg_draws n st).1 = n).
  { induction n as [|n IH]; intros st; [done|]. simpl.
    specialize (IH (lcg_next st)). destruct (lcg_draws n (lcg_next st)). simpl in *. lia. }
  assert (Hrange : ∀ n st, Forall (λ u, 0 ≤ u < 2147483648) (lcg_draws n st).1).
  { induction n as [|n IH]; intros st; [by constructor|]. simpl.
    specialize (IH (lcg_next st)). destruct (lcg_draws n (lcg_next st)). simpl in *.
    constructor; [|done]. unfold lcg_next. apply Z.mod_pos_bound. lia. }
  refine {| rng_state := Z;
            rng_seed := λ s, s mod 4294967296;
            rng_choice := lcg_choice;
            rng_normal := lcg_normal;
            parse_csv := simple_csv;
            plot_error := refuse_empty_bar |}.
  - intros k p n st. unfold lcg_choice. specialize (Hlength n st).
    destruct (lcg_draws n st). simpl in *. by rewrite length_fmap.
  - intros k p n st Hk _. unfold lcg_choice. destruct (lcg_draws n st) as [us st']. simpl.
    apply Forall_fmap, Forall_forall. intros u _. unfold compose, lcg_pick.
    destruct p as [ps|]; [lia|].
    pose proof (Z.mod_pos_bound (u / 65536) (Z.of_nat k)). lia.
  - intros loc scale n st. unfold lcg_normal. specialize (Hlength n st).
    destruct (lcg_draws n st). simpl in *. by rewrite length_fmap.
  - intros loc scale n st. unfold lcg_normal. specialize (Hrange n st).
    destruct (lcg_draws n st) as [us st']. simpl in *.
    apply Forall_fmap. eapply Forall_impl; [exact Hrange|].
    intros u Hu. cbv beta in Hu. unfold compose, is_nan.
    assert (Hexp : Z.shiftr (4636737291354636288 + u * 65536) 52 = 1029).
    { rewrite Z.shiftr_div_pow2 by lia. symmetry.
      change (2 ^ 52) with 4503599627370496.
      apply (Z.div_unique _ _ _ (2533274790395904 + u * 65536)); lia. }
    by rewrite Hexp.
Defined.

(** A working directory that is writable and holds nothing. *)
Definition empty_world : World (Env := lcg_env) :=
  {| fs := {[ [] := Dir true ]}; np_random := rng_seed 0; log := [] |}.

(** The object of [main]: default path, nothing loaded yet. *)
Definition fresh_state : State (Env := lcg_env) :=
  (init ["data"; "sample_data.csv"], empty_world).

(** A working directory holding [data/sample_data.csv] with the text [s]. *)
Definition world_with_csv (s : string) : World (Env := lcg_env) :=
  {| fs := <[ ["data"; "sample_data.csv"] := File (Text s) ]>
           (<[ ["data"] := Dir true ]> {[ [] := Dir true ]});
     np_random := rng_seed 0; log := [] |}.

(** A working directory in which nothing may be created. *)
Definition read_only_world : World (Env := lcg_env) :=
  {| fs := {[ [] := Dir false ]}; np_random := rng_seed 0; log := [] |}.

(** Three rows in the layout of the sample table. *)
Definition mixed_frame : DataFrame :=
  {| df_index := 3;
     df_data :=
       [ {| col_name := "id"; col_dtype := int64; col_values := [VInt 1; VInt 2; VInt 3] |};
         {| col_name := "categoria"; col_dtype := object_;
            col_values := [VStr "A"; VStr "B"; VStr "A"] |};
         {| col_name := "valor"; col_dtype := float64;
            col_values := [VFloat 4636737291354636288; VFloat 4632233691727265792;
                           VFloat 4627730092099895296] |};
         {| col_name := "data"; col_dtype := datetime64;
            col_values := [VDate 19358; VDate 19359; VDate 19360] |};
         {| col_name := "ativo"; col_dtype := bool_;
            col_values := [VBool true; VBool false; VBool true] |} ] |}.


(** A table whose only column is the identifier. *)
Definition ids_frame : DataFrame :=
  {| df_index := 3;
     df_data :=
       [ {| col_name := "id"; col_dtype := int64; col_values := [VInt 1; VInt 2; VInt 3] |} ] |}.

Definition shape_of (r : result DataFrame) : option (nat * nat) :=
  match r with
  | Ok df => Some (shape df)
  | Raise _ => None
  end.

(** +inf and -inf: exponent field all ones, fraction zero. *)
Definition is_inf (bits : Z) : bool :=
  (Z.land (Z.shiftr bits 52) 2047 =? 2047)%Z && (Z.land bits (2 ^ 52 - 1) =? 0)%Z.

(** A back end that, besides, refuses the histogram of data with an infinite
    value ("autodetected range is not finite"). *)
Definition refuse_infinite (p : Plot) : option exn :=
  match p with
  | Hist xs _ =>
      if existsb (λ v, match v with VFloat bits => is_inf bits | _ => false end) xs
      then Some ValueError else None
  | Bar [] => Some TypeError
  | Bar _ => None
  end.

(** The environment [lcg_env] with this back end. *)
Definition picky_env : Environment :=
  {| rng_state := @rng_state lcg_env;
     rng_seed := @rng_seed lcg_env;
     rng_choice := @rng_choice lcg_env;
     rng_normal := @rng_normal lcg_env;
     parse_csv := @parse_csv lcg_env;
     plot_error := refuse_infinite;
     rng_choice_length := @rng_choice_length lcg_env;
     rng_choice_range := @rng_choice_range lcg_env;
     rng_normal_length := @rng_normal_length lcg_env;
     rng_normal_not_nan := @rng_normal_not_nan lcg_env |}.

Definition picky_world : World (Env := picky_env) :=
  {| fs := {[ [] := Dir true ]}; np_random := rng_seed 0; log := [] |}.

(** A working directory where a regular file is called [plots]. *)
Definition world_with_plots_file : World (Env := lcg_env) :=
  {| fs := <[ ["plots"] := File (Text "notes") ]> {[ [] := Dir true ]};
     np_random := rng_seed 0; log := [] |}.

(** A numeric column with an infinite value (100.0 and +inf). *)
Definition inf_frame : DataFrame :=
  {| df_index := 2;
     df_data :=
       [ {| col_name := "valor"; col_dtype := float64;
            col_values := [VFloat 4636737291354636288; VFloat 9218868437227405312] |} ] |}.

(** A numeric column and a column of labels that are all missing. *)
Definition blank_labels_frame : DataFrame :=
  {| df_index := 2;
     df_data :=
       [ {| col_name := "valor"; col_dtype := float64;
            col_values := [VFloat 4636737291354636288; VFloat 4632233691727265792] |};
         {| col_name := "categoria"; col_dtype := object_;
            col_values := [VNone; VNone] |} ] |}.

(** A table of dates only. *)
Definition dates_frame : DataFrame :=
  {| df_index := 2;
     df_data :=
       [ {| col_name := "data"; col_dtype := datetime64;
            col_values := [VDate 19358; VDate 19359] |} ] |}.

(** * Properties *)

(** ** Paths, frames and dicts *)

Lemma parent_joinpath (p : path) (name : string) : parent (joinpath p name) = p.
Proof.
  unfold parent, joinpath. rewrite length_app. simpl.
  replace (length p + 1 - 1)%nat with (length p) by lia.
  by rewrite take_app_length.
Qed.

Lemma joinpath_inj (p : path) (a b : string) : joinpath p a = joinpath p b → a = b.
Proof. unfold joinpath. intros H. apply app_inv_head in H. congruence. Qed.

Lemma joinpath_ne_self (p : path) (name : string) : joinpath p name ≠ p.
Proof.
  unfold joinpath. intros H. apply (f_equal length) in H.
  rewrite length_app in H. simpl in H. lia.
Qed.

Lemma DataFrame_of_dict_ok (c : Column) (data : list Column) (n : nat) :
  Forall (λ c', length (col_values c') = n) (c :: data) →
  DataFrame_of_dict (c :: data) = Ok {| df_index := n; df_data := c :: data |}.
Proof.
  intros H. unfold DataFrame_of_dict.
  assert (Hc : length (col_values c) = n) by (by inversion H).
  rewrite Hc.
  replace (forallb _ (c :: data)) with true; [done|].
  symmetry. apply forallb_forall. intros c' Hin.
  apply Nat.eqb_eq. rewrite Forall_forall in H. apply H.
  by apply list_elem_of_In.
Qed.

Lemma getitem_here (n : nat) (c : Column) (l : list Column) (col : string) :
  col_name c = col → getitem {| df_index := n; df_data := c :: l |} col = col_values c.
Proof. intros H. unfold getitem. simpl. by rewrite decide_True. Qed.

Lemma getitem_later (n : nat) (c : Column) (l : list Column) (col : string) :
  col_name c ≠ col →
  getitem {| df_index := n; df_data := c :: l |} col =
  getitem {| df_index := n; df_data := l |} col.
Proof.
  intros H. unfold getitem. simpl. rewrite decide_False by done.
  by destruct (list_find _ l) as [[i c']|].
Qed.


Lemma length_omap_lookup {A} (a : list A) (idx : list nat) :
  Forall (λ i, (i < length a)%nat) idx →
  length (omap (λ i, a !! i) idx) = length idx.
Proof.
  induction 1 as [|i idx Hi _ IH]; [done|].
  destruct (lookup_lt_is_Some_2 a i Hi) as [x Hx].
  cbn. rewrite Hx. cbn. f_equal. exact IH.
Qed.

Lemma elem_of_omap_lookup {A} (a : list A) (idx : list nat) (x : A) :
  x ∈ omap (λ i, a !! i) idx → x ∈ a.
Proof.
  intros H. apply list_elem_of_omap in H as (i & _ & Hi).
  by eapply list_elem_of_lookup_2.
Qed.

Lemma filter_isnull_nil (vs : list value) :
  Forall (λ v, isnull v = false) vs → filter (λ v, isnull v = true) vs = [].
Proof.
  induction 1 as [|v vs Hv _ IH]; [done|].
  rewrite filter_cons, decide_False; [done|]. by rewrite Hv.
Qed.

Lemma lookup_to_dict_last {A B} (key : A → string) (val : A → B) (l : list A) (a : A) :
  to_dict key val (l ++ [a]) !! key a = Some (val a).
Proof. unfold to_dict. rewrite foldl_app. simpl. apply lookup_insert_eq. Qed.

(** The keys of a dict built by [to_dict] are the keys assigned. *)
Lemma lookup_to_dict_is_Some {A B} (key : A → string) (val : A → B) (l : list A) (k : string) :
  is_Some (to_dict key val l !! k) ↔ k ∈ key <$> l.
Proof.
  unfold to_dict. induction l as [|a l IH] using rev_ind.
  - simpl. rewrite lookup_empty. split; [by intros [? ?]|by intros ?%elem_of_nil].
  - rewrite foldl_app, fmap_app, elem_of_app. simpl.
    rewrite lookup_insert. case_decide as Hk.
    + subst k. split; [intros _; right; apply list_elem_of_singleton; done|eauto].
    + rewrite IH, list_elem_of_singleton.
      split; [by left | intros [?|?]; [done | congruence]].
Qed.

(** With distinct keys, each key holds the value computed for it. *)
Lemma lookup_to_dict_unique {A B} (key : A → string) (val : A → B) (l : list A) (a : A) :
  NoDup (key <$> l) → a ∈ l → to_dict key val l !! key a = Some (val a).
Proof.
  unfold to_dict. induction l as [|b l IH] using rev_ind; intros Hnd Hin.
  - by apply elem_of_nil in Hin.
  - rewrite foldl_app. simpl.
    rewrite fmap_app in Hnd. apply NoDup_app in Hnd as (Hnd & Hfresh & _).
    apply elem_of_app in Hin as [Hin|Hin].
    + rewrite lookup_insert_ne; [by apply IH|].
      intros Heq. apply (Hfresh (key a)); [by apply list_elem_of_fmap_2|].
      rewrite <- Heq. simpl. apply list_elem_of_singleton. done.
    + apply list_elem_of_singleton in Hin as ->. apply lookup_insert_eq.
Qed.

Global Instance VInt_inj : Inj (=) (=) VInt.
Proof. by intros x y [= ->]. Qed.

(** ** [value_counts] *)

(** Its rows are the values present and not missing, each with the number of
    times it occurs. *)
Lemma elem_of_value_counts (vs : list value) (v : value) (n : nat) :
  (v, n) ∈ value_counts vs ↔ v ∈ vs ∧ isnull v = false ∧ n = occurrences v vs.
Proof.
  unfold value_counts. rewrite merge_sort_Permutation.
  rewrite list_elem_of_fmap. split.
  - intros (v' & [= -> ->] & Hin).
    apply elem_of_remove_dups, list_elem_of_filter in Hin. by destruct Hin.
  - intros (Hin & Hnull & ->). exists v. split; [done|].
    by apply elem_of_remove_dups, list_elem_of_filter.
Qed.

(** No value has two rows. *)
Lemma NoDup_value_counts (vs : list value) : NoDup (value_counts vs).*1.
Proof.
  unfold value_counts. rewrite merge_sort_Permutation.
  assert (Hfst : ∀ l : list value, ((λ v, (v, occurrences v vs)) <$> l).*1 = l).
  { induction l as [|v l IH]; [done|]. cbn. by f_equal. }
  rewrite Hfst. apply NoDup_remove_dups.
Qed.

Global Instance more_frequent_total : Total more_frequent.
Proof. intros x y. unfold more_frequent. lia. Qed.



(** ** [select_dtypes] *)

Lemma elem_of_select_dtypes (include : list selector) (df : DataFrame) (c : Column) :
  c ∈ df_data (select_dtypes include df) ↔
  c ∈ df_data df ∧ ∃ s, s ∈ include ∧ selects s (col_dtype c) = true.
Proof.
  unfold select_dtypes. cbn [df_data]. rewrite list_elem_of_filter.
  rewrite Is_true_true, existsb_exists. setoid_rewrite <- list_elem_of_In. tauto.
Qed.


(** ** The file system steps *)

Lemma mkdir_exist_ok_existing (p : path) (files : gmap path node) (b : bool) :
  files !! p = Some (Dir b) → mkdir_exist_ok p files = Ok files.
Proof. intros H. unfold mkdir_exist_ok. by rewrite H. Qed.

Lemma mkdir_exist_ok_new (p : path) (files : gmap path node) :
  files !! p = None → files !! parent p = Some (Dir true) →
  mkdir_exist_ok p files = Ok (<[p := Dir true]> files).
Proof. intros H1 H2. unfold mkdir_exist_ok. by rewrite H1, H2. Qed.

(** A successful [mkdir] leaves a directory at the path and touches nothing
    else. *)
Lemma mkdir_exist_ok_Ok (p : path) (files files' : gmap path node) :
  mkdir_exist_ok p files = Ok files' →
  (∃ b, files' !! p = Some (Dir b))
  ∧ (∀ q, q ≠ p → files' !! q = files !! q)
  ∧ (∀ b, files !! p = Some (Dir b) → files' = files)
  ∧ (files !! p = None → files !! parent p = Some (Dir true) ∧ files' !! p = Some (Dir true)).
Proof.
  unfold mkdir_exist_ok. destruct (files !! p) as [[b|c]|] eqn:Hp.
  - intros [= <-]. split_and!; [eauto | done | done | done].
  - done.
  - destruct (files !! parent p) as [[[]|c]|] eqn:Hpp; try done.
    intros [= <-]. split_and!.
    + exists true. apply lookup_insert_eq.
    + intros q Hq. by rewrite lookup_insert_ne.
    + done.
    + intros _. split; [done|]. apply lookup_insert_eq.
Qed.

Lemma write_file_Ok (q : path) (c : content) (files files' : gmap path node) :
  write_file q c files = Ok files' → files' = <[q := File c]> files.
Proof.
  unfold write_file. destruct (files !! q) as [[b|c']|]; try done; [congruence|].
  destruct (files !! parent q) as [[[]|c']|]; try done. congruence.
Qed.

(** A file can be written where no directory sits and the parent is a
    writable directory. *)
Lemma write_file_writable (q : path) (c : content) (files : gmap path node) :
  (∀ b, files !! q ≠ Some (Dir b)) → files !! parent q = Some (Dir true) →
  write_file q c files = Ok (<[q := File c]> files).
Proof.
  intros Hnd Hp. unfold write_file. destruct (files !! q) as [[b|c']|] eqn:Hq.
  - by destruct (Hnd b).
  - done.
  - by rewrite Hp.
Qed.

(** Over an existing file, too. *)
Lemma write_file_over (q : path) (c c' : content) (files : gmap path node) :
  files !! q = Some (File c') → write_file q c files = Ok (<[q := File c]> files).
Proof. intros H. unfold write_file. by rewrite H. Qed.

(** ** [generate_sample_data] *)

Section generate_sample_data_properties.
Context `{Env : Environment}.

(** Running the generator steps of [generate_sample_data], one at a time. *)
Ltac run_generator :=
  unfold generate_sample_data, np_random_seed, np_random_choice, np_random_normal;
  unfold bind, put_np_random, get_world, lift, set_data, logger, ret;
  cbn [fst snd np_random fs log];
  repeat lazymatch goal with
    | |- context [rng_choice ?k ?p ?n ?st] =>
        let idx := fresh "idx" in let st' := fresh "st" in let E := fresh "Hchoice" in
        pose proof (rng_choice_length k p n st) as ?;
        pose proof (rng_choice_range k p n st) as ?;
        destruct (rng_choice k p n st) as [idx st'] eqn:E;
        cbn [fst snd np_random fs log] in *
    | |- context [rng_normal ?l ?s ?n ?st] =>
        let xs := fresh "xs" in let st' := fresh "st" in let E := fresh "Hnormal" in
        pose proof (rng_normal_length l s n st) as ?;
        pose proof (rng_normal_not_nan l s n st) as ?;
        destruct (rng_normal l s n st) as [xs st'] eqn:E;
        cbn [fst snd np_random fs log] in *
    end.

Lemma length_range (lo hi : Z) : length (range lo hi) = Z.to_nat (hi - lo).
Proof. unfold range. apply length_seqZ. Qed.

Lemma length_date_range (start : Z) (n : nat) : length (date_range start n) = n.
Proof. unfold date_range. rewrite length_seqZ. lia. Qed.

(** What one run of [generate_sample_data] does, in full: it returns a frame
    of five columns of 1000 cells each, stores it in [self.data], leaves the
    files alone and logs one line. The three drawn columns are described by
    what the generator guarantees. *)
Lemma generate_sample_data_run (s : State) :
  ∃ (categoria : list string) (valor : list Z) (ativo : list bool) (st : rng_state),
    let df :=
      {| df_index := 1000;
         df_data :=
           [ {| col_name := "id"; col_dtype := int64; col_values := VInt <$> seqZ 1 1000 |};
             {| col_name := "categoria"; col_dtype := object_; col_values := VStr <$> categoria |};
             {| col_name := "valor"; col_dtype := float64; col_values := VFloat <$> valor |};
             {| col_name := "data"; col_dtype := datetime64;
                col_values := VDate <$> seqZ date_2023_01_01 1000 |};
             {| col_name := "ativo"; col_dtype := bool_; col_values := VBool <$> ativo |} ] |} in
    generate_sample_data s =
      (Ok df,
       ({| data_path := data_path s.1; data := Some df |},
        {| fs := fs s.2; np_random := st;
           log := (log s.2 ++ [(INFO, DadosDeExemploGerados (1000, 5)%nat)])%list |}))
    ∧ length categoria = 1000%nat
    ∧ Forall (λ c, c ∈ ["A"; "B"; "C"; "D"]) categoria
    ∧ length valor = 1000%nat
    ∧ Forall (λ bits, is_nan bits = false) valor
    ∧ length ativo = 1000%nat.
Proof.
  run_generator.
  assert (Hidx : Forall (λ i, (i < 4)%nat) idx).
  { apply H0; [simpl; lia | intros ps Hps; discriminate]. }
  assert (Hidx0 : Forall (λ i, (i < 2)%nat) idx0).
  { apply H4; [simpl; lia | intros ps [= <-]; reflexivity]. }
  simpl length in H, H3.
  eexists (omap (λ i, ["A"; "B"; "C"; "D"] !! i) idx), xs,
    (omap (λ i, [true; false] !! i) idx0), st1.
  assert (Hc : length (omap (λ i, ["A"; "B"; "C"; "D"] !! i) idx) = 1000%nat).
  { rewrite length_omap_lookup; [done | exact Hidx]. }
  assert (Ha : length (omap (λ i, [true; false] !! i) idx0) = 1000%nat).
  { rewrite length_omap_lookup; [done | exact Hidx0]. }
  cbv zeta. split; [|split_and!; try done].
  - erewrite DataFrame_of_dict_ok with (n := 1000%nat).
    + reflexivity.
    + repeat apply Forall_cons_2; try apply Forall_nil_2; cbn [col_values];
        rewrite length_fmap; [ rewrite length_range; lia | done | done
                             | apply length_date_range | done ].
  - apply Forall_forall. intros c Hc'. by eapply elem_of_omap_lookup.
Qed.

(** C2. [generate_sample_data] always returns: the frame has 1000 rows and 5
    columns (labelled id, categoria, valor, data, ativo), no cell of any
    column is missing (every per-column count of missing values is 0), every
    [categoria] cell is one of A, B, C, D, and the [id] column is exactly
    1, 2, ..., 1000, without repetition. *)
Theorem generate_sample_data_table (s : State) :
  ∃ (df : DataFrame) (s' : State),
    generate_sample_data s = (Ok df, s')
    ∧ shape df = (1000, 5)%nat
    ∧ columns df = ["id"; "categoria"; "valor"; "data"; "ativo"]
    ∧ Forall (λ c, length (col_values c) = 1000%nat
                   ∧ Forall (λ v, isnull v = false) (col_values c)) (df_data df)
    ∧ Forall (λ col, missing_values df !! col = Some 0%nat) (columns df)
    ∧ Forall (λ v, v ∈ [VStr "A"; VStr "B"; VStr "C"; VStr "D"]) (getitem df "categoria")
    ∧ getitem df "id" = VInt <$> seqZ 1 1000
    ∧ NoDup (getitem df "id").
Proof.
  destruct (generate_sample_data_run s)
    as (categoria & valor & ativo & st & Hrun & Hlc & Hcat & Hlv & Hval & Hla).
  cbv zeta in Hrun. eexists _, _. split; [exact Hrun|].
  assert (Hcells :
    Forall (λ c, length (col_values c) = 1000%nat
                 ∧ Forall (λ v, isnull v = false) (col_values c))
      [ {| col_name := "id"; col_dtype := int64; col_values := VInt <$> seqZ 1 1000 |};
        {| col_name := "categoria"; col_dtype := object_; col_values := VStr <$> categoria |};
        {| col_name := "valor"; col_dtype := float64; col_values := VFloat <$> valor |};
        {| col_name := "data"; col_dtype := datetime64;
           col_values := VDate <$> seqZ date_2023_01_01 1000 |};
        {| col_name := "ativo"; col_dtype := bool_; col_values := VBool <$> ativo |} ]).
  { repeat apply Forall_cons_2; try apply Forall_nil_2; cbn [col_values];
      (split; [rewrite length_fmap; first [done | by rewrite length_seqZ]|]);
      apply Forall_fmap, Forall_forall; intros x Hx; cbn; try done.
    rewrite Forall_forall in Hval. by apply Hval. }
  split_and!.
  - reflexivity.
  - reflexivity.
  - exact Hcells.
  - unfold columns. cbn [df_data]. apply Forall_fmap, Forall_forall.
    intros c Hc. unfold compose, missing_values. cbn [df_data].
    rewrite lookup_to_dict_unique.
    + rewrite Forall_forall in Hcells. destruct (Hcells c Hc) as [_ Hnn].
      by rewrite filter_isnull_nil.
    + apply (bool_decide_unpack _). by vm_compute.
    + exact Hc.
  - rewrite getitem_later, getitem_here by done. cbn [col_values].
    apply Forall_fmap. eapply Forall_impl; [exact Hcat|].
    intros c Hc. cbn. by apply (list_elem_of_fmap_2 VStr) in Hc.
  - by rewrite getitem_here.
  - rewrite getitem_here by done. cbn [col_values].
    apply NoDup_fmap_2; [apply _ | apply NoDup_seqZ].
Qed.

(** The table returned does not depend on the state the method starts from:
    the generator is reseeded before the first draw. *)
Lemma generate_sample_data_same (s1 s2 : State) :
  (generate_sample_data s1).1 = (generate_sample_data s2).1.
Proof. run_generator. by destruct (DataFrame_of_dict _). Qed.

(** Nor does the state in which the global generator is left. *)
Lemma generate_sample_data_generator (s1 s2 : State) :
  np_random (generate_sample_data s1).2.2 = np_random (generate_sample_data s2).2.2.
Proof. run_generator. by destruct (DataFrame_of_dict _). Qed.

(** C3. [generate_sample_data] is deterministic: whatever the object and the
    world it starts from (files, state of the generator left by earlier
    draws, log), it reseeds with 42 and returns the same table, and stores
    the same table in [self.data]. *)
Theorem generate_sample_data_deterministic (s1 s2 : State) :
  (generate_sample_data s1).1 = (generate_sample_data s2).1
  ∧ data (generate_sample_data s1).2.1 = data (generate_sample_data s2).2.1
  ∧ ∃ df, (generate_sample_data s1).1 = Ok df.
Proof.
  pose proof (generate_sample_data_same s1 s2) as Hret.
  destruct (generate_sample_data_run s1) as (c1 & v1 & a1 & st1 & Hrun1 & _).
  destruct (generate_sample_data_run s2) as (c2 & v2 & a2 & st2 & Hrun2 & _).
  cbv zeta in Hrun1, Hrun2.
  set (df1 := {| df_index := _; df_data := _ |}) in Hrun1.
  set (df2 := {| df_index := _; df_data := _ |}) in Hrun2.
  rewrite Hrun1, Hrun2 in Hret |- *. cbn [fst snd data] in Hret |- *.
  split_and!; [exact Hret | congruence | by exists df1].
Qed.

End generate_sample_data_properties.

(** ** [load_data] *)

Section load_data_properties.
Context `{Env : Environment}.

Lemma generate_sample_data_Ok (s : State) :
  ∃ df s', generate_sample_data s = (Ok df, s') ∧ data s'.1 = Some df
           ∧ fs s'.2 = fs s.2 ∧ shape df = (1000, 5)%nat.
Proof.
  destruct (generate_sample_data_run s) as (c & v & a & st & Hrun & _).
  cbv zeta in Hrun. eexists _, _. split; [exact Hrun|]. done.
Qed.

(** The path does not exist: a warning, then the synthetic table. *)
Lemma load_data_missing (s : State) :
  fs s.2 !! data_path s.1 = None →
  load_data s = generate_sample_data (logged WARNING ArquivoNaoEncontrado s).
Proof.
  intros Hnone. unfold load_data, try_except, path_exists.
  unfold bind at 1. unfold get_self at 1. unfold bind at 1. unfold bind at 1.
  unfold get_world at 1, ret at 1. cbn [fst snd].
  rewrite Hnone, bool_decide_eq_false_2 by (by intros [? ?]).
  unfold bind at 1. cbn [logger fst snd]. unfold logged. cbn [logger fst snd].
  destruct (generate_sample_data_Ok
    (s.1, {| fs := fs s.2; np_random := np_random s.2;
             log := (log s.2 ++ [(WARNING, ArquivoNaoEncontrado)])%list |}))
    as (df & s' & -> & _). done.
Qed.

(** The path exists and the parser accepts the file: the parsed table. *)
Lemma load_data_parsed (s : State) (c : content) (df : DataFrame) :
  fs s.2 !! data_path s.1 = Some (File c) → parse_csv c = Ok df →
  load_data s =
    (Ok df, logged INFO (DadosCarregados (shape df))
              ({| data_path := data_path s.1; data := Some df |}, s.2)).
Proof.
  intros Hfile Hparse. unfold load_data, try_except, path_exists, read_csv.
  unfold bind, get_self, get_world, ret, lift, set_data, logged. cbn [fst snd logger].
  rewrite bool_decide_eq_true_2 by (rewrite Hfile; eauto).
  rewrite Hfile, Hparse. done.
Qed.

(** The path exists and reading it raises [e]: an error line, then the
    synthetic table. *)
Lemma load_data_failed (s : State) (e : exn) :
  is_Some (fs s.2 !! data_path s.1) → (read_csv (data_path s.1) s).1 = Raise e →
  load_data s = generate_sample_data (logged ERROR (ErroAoCarregar e) s).
Proof.
  intros Hsome Hraise. unfold load_data, try_except, path_exists.
  unfold bind at 1. unfold get_self at 1. unfold bind at 1. unfold bind at 1.
  unfold get_world at 1, ret at 1. cbn [fst snd].
  rewrite bool_decide_eq_true_2 by done.
  unfold bind at 1.
  assert (Hread : read_csv (data_path s.1) s = (Raise e, s)).
  { revert Hraise. unfold read_csv, bind, get_world, lift, raise. cbn [fst snd].
    destruct (fs s.2 !! data_path s.1) as [[w|c]|]; cbn; congruence. }
  rewrite Hread. unfold bind at 1. unfold logged. by destruct s.
Qed.

(** What [read_csv] returns on the path of [self], read off the files. *)
Lemma read_csv_result (s : State) :
  (read_csv (data_path s.1) s).1 =
    match fs s.2 !! data_path s.1 with
    | Some (File c) => parse_csv c
    | Some (Dir _) => Raise IsADirectoryError
    | None => Raise FileNotFoundError
    end.
Proof.
  unfold read_csv, bind, get_world, lift, raise. cbn [fst snd].
  by destruct (fs s.2 !! data_path s.1) as [[w|c]|].
Qed.

(** The two ways out of [load_data]: the parsed table, when the path exists
    and reading it succeeds; otherwise one log line and the run of
    [generate_sample_data]. *)
Lemma load_data_cases (s : State) :
  (∃ df, is_Some (fs s.2 !! data_path s.1)
         ∧ (read_csv (data_path s.1) s).1 = Ok df
         ∧ load_data s =
             (Ok df, logged INFO (DadosCarregados (shape df))
                       ({| data_path := data_path s.1; data := Some df |}, s.2)))
  ∨ (∃ l msg, (fs s.2 !! data_path s.1 = None
               ∨ ∃ e, (read_csv (data_path s.1) s).1 = Raise e)
              ∧ load_data s = generate_sample_data (logged l msg s)).
Proof.
  pose proof (read_csv_result s) as Hread.
  destruct (fs s.2 !! data_path s.1) as [[w|c]|] eqn:Hnode.
  - right. exists ERROR, (ErroAoCarregar IsADirectoryError). split; [eauto|].
    apply load_data_failed; [rewrite Hnode; eauto | done].
  - destruct (parse_csv c) as [df|e] eqn:Hparse.
    + left. exists df. split_and!; [eauto | done |]. by apply (load_data_parsed s c df).
    + right. exists ERROR, (ErroAoCarregar e). split; [eauto|].
      apply load_data_failed; [rewrite Hnode; eauto | done].
  - right. exists WARNING, ArquivoNaoEncontrado. split; [by left|].
    by apply load_data_missing.
Qed.

(** [load_data] returns a table and stores it; the files stay as they are. *)
Lemma load_data_Ok (s : State) :
  ∃ df s', load_data s = (Ok df, s') ∧ data s'.1 = Some df ∧ fs s'.2 = fs s.2.
Proof.
  destruct (load_data_cases s) as [(df & _ & _ & ->)|(l & msg & _ & ->)].
  - eexists _, _. split_and!; done.
  - destruct (generate_sample_data_Ok (logged l msg s)) as (df & s' & -> & Hd & Hfs & _).
    exists df, s'. split_and!; done.
Qed.

Lemma load_data_fs (s : State) : fs (load_data s).2.2 = fs s.2.
Proof. by destruct (load_data_Ok s) as (df & s' & -> & _ & Hfs). Qed.

(** C1. [load_data] never raises: from every state it returns a table and
    leaves it in [self.data]. When the path does not exist, and when reading
    the existing path raises whatever exception, the table is the synthetic
    one, with 1000 rows and 5 columns, equal to the table
    [generate_sample_data] returns. *)
Theorem load_data_never_raises (s : State) :
  ∃ (df : DataFrame) (s' : State),
    load_data s = (Ok df, s')
    ∧ data s'.1 = Some df
    ∧ (fs s.2 !! data_path s.1 = None ∨
       (∃ e, (read_csv (data_path s.1) s).1 = Raise e) →
       shape df = (1000, 5)%nat ∧ (generate_sample_data s).1 = Ok df).
Proof.
  destruct (load_data_cases s) as [(df & [n Hn] & Hread & Hload)|(l & msg & _ & Hload)].
  - (* the file was read: neither premise of the fallback holds *)
    rewrite Hload. eexists _, _. split_and!; [done..|].
    intros [Hnone|[e He]]; [congruence|]. rewrite Hread in He. discriminate.
  - (* the fallback *)
    rewrite Hload.
    destruct (generate_sample_data_Ok (logged l msg s)) as (df & s' & Hrun & Hd & _ & Hsh).
    exists df, s'. split_and!; [done..|]. intros _. split; [done|].
    rewrite (generate_sample_data_same s (logged l msg s)). by rewrite Hrun.
Qed.

End load_data_properties.

(** ** [analyze] *)

Section analyze_properties.
Context `{Env : Environment}.

Lemma ensure_data_cached (s : State) (df : DataFrame) :
  data s.1 = Some df → ensure_data s = (Ok tt, s).
Proof.
  intros H. unfold ensure_data, bind, get_self, ret. cbn [fst snd]. by rewrite H.
Qed.

Lemma ensure_data_fresh (s : State) :
  data s.1 = None →
  ∃ df s', load_data s = (Ok df, s') ∧ data s'.1 = Some df ∧ ensure_data s = (Ok tt, s').
Proof.
  intros H. destruct (load_data_Ok s) as (df & s' & Hload & Hd & _).
  exists df, s'. split_and!; [done..|].
  unfold ensure_data, bind, get_self, ret. cbn [fst snd]. by rewrite H, Hload.
Qed.

(** [ensure_data] never raises and leaves a table in [self.data]. *)
Lemma ensure_data_Ok (s : State) :
  ∃ df s', ensure_data s = (Ok tt, s') ∧ data s'.1 = Some df.
Proof.
  destruct (data s.1) as [df|] eqn:Hd.
  - exists df, s. by rewrite (ensure_data_cached s df).
  - destruct (ensure_data_fresh s Hd) as (df & s' & _ & ? & ?). eauto.
Qed.

Lemma the_data_cached (s : State) (df : DataFrame) :
  data s.1 = Some df → the_data s = (Ok df, s).
Proof. intros H. unfold the_data, bind, get_self, ret. cbn [fst snd]. by rewrite H. Qed.

(** With a table at hand [analyze] computes the dict and changes nothing. *)
Lemma analyze_cached (s : State) (df : DataFrame) :
  data s.1 = Some df → analyze s = (Ok (analysis_of df), s).
Proof.
  intros H. unfold analyze. unfold bind at 1. rewrite (ensure_data_cached s df H).
  unfold bind. by rewrite (the_data_cached s df H).
Qed.

(** Without one it loads first. *)
Lemma analyze_fresh (s : State) :
  data s.1 = None →
  ∃ df s', load_data s = (Ok df, s') ∧ data s'.1 = Some df
           ∧ analyze s = (Ok (analysis_of df), s').
Proof.
  intros H. destruct (ensure_data_fresh s H) as (df & s' & Hload & Hd & Hens).
  exists df, s'. split_and!; [done..|].
  unfold analyze. unfold bind at 1. rewrite Hens.
  unfold bind. by rewrite (the_data_cached s' df Hd).
Qed.


Lemma numeric_summary_of (df : DataFrame) :
  analysis_of df !! "numeric_summary" =
  Some (NumericSummary
          (if decide (0 < length (columns (select_dtypes [np_number] df)))%nat
           then Describe df else EmptyDict)).
Proof. reflexivity. Qed.

Lemma categorical_summary_of (df : DataFrame) :
  analysis_of df !! "categorical_summary" =
  Some (CategoricalSummary
          (to_dict id (λ col, value_counts (getitem df col))
             (columns (select_dtypes [sel_object; sel_category] df)))).
Proof. reflexivity. Qed.


(** With a numeric column the key holds the dict of [describe]. *)
Lemma analyze_numeric_summary_describe (p : path) (w : World) (df : DataFrame) (c : Column) :
  c ∈ df_data df → is_numeric c = true →
  (analyze (holding p df, w)).1 = Ok (analysis_of df)
  ∧ analysis_of df !! "numeric_summary" = Some (NumericSummary (Describe df)).
Proof.
  intros Hc Hnum. split; [by erewrite analyze_cached|].
  rewrite numeric_summary_of, decide_True; [done|].
  assert (Hin : c ∈ df_data (select_dtypes [np_number] df)).
  { apply elem_of_select_dtypes. split; [done|]. exists np_number. split; [|done].
    apply list_elem_of_singleton. done. }
  unfold columns. rewrite length_fmap.
  destruct (df_data (select_dtypes [np_number] df)); [by apply elem_of_nil in Hin|simpl; lia].
Qed.



End analyze_properties.

(** ** [create_visualizations] *)

Section create_visualizations_properties.
Context `{Env : Environment}.

(** *** What is drawn *)

Lemma first_error_None (reqs : list (option Plot)) :
  (∀ p, Some p ∈ reqs → plot_error p = None) → first_error reqs = None.
Proof.
  induction reqs as [|[p|] reqs IH]; intros H; [done|..]; simpl.
  - rewrite (H p) by (apply elem_of_cons; by left).
    apply IH. intros q Hq. apply H, elem_of_cons. by right.
  - apply IH. intros q Hq. apply H, elem_of_cons. by right.
Qed.

Lemma plot_numeric_fills (df : DataFrame) :
  fills_panel (plot_numeric df) (numeric_request df) (numeric_panel df).
Proof.
  intros pre post col s. unfold plot_numeric, numeric_request, numeric_panel.
  case_decide as Hid; [|done]. cbn [first_error]. unfold bind, draw.
  destruct (plot_error _) as [e|]; [done|]. unfold ret.
  replace (length pre) with (length pre + 0)%nat by lia.
  by rewrite !alter_app_r.
Qed.

Lemma plot_categorical_fills (df : DataFrame) :
  fills_panel (plot_categorical df) (categorical_request df) (categorical_panel df).
Proof.
  intros pre post col s. unfold plot_categorical, categorical_request, categorical_panel.
  cbn [first_error]. unfold bind, draw.
  destruct (plot_error _) as [e|]; [done|]. unfold ret.
  replace (length pre) with (length pre + 0)%nat by lia.
  by rewrite !alter_app_r.
Qed.

(** The loop over the columns: it stops at the first refusal, otherwise
    every panel is filled, in the order of the columns. The state is not
    touched. *)
Lemma for_each_fills body request panel (cols : list string)
    (pre post : list Axes) (s : State) :
  fills_panel body request panel →
  for_each (enumerate_from (length pre) cols) body
    (pre ++ replicate (length cols) blank_axes ++ post) s =
    (match first_error (request <$> cols) with
     | Some e => Raise e
     | None => Ok (pre ++ (panel <$> cols) ++ post)
     end, s).
Proof.
  intros Hbody. revert pre. induction cols as [|col cols IH]; intros pre; [done|].
  cbn [enumerate_from for_each length replicate app fmap list_fmap].
  unfold bind at 1. rewrite Hbody. cbn [first_error].
  destruct (request col) as [p|].
  - destruct (plot_error p) as [e|]; [done|].
    specialize (IH (pre ++ [panel col])%list). rewrite length_app in IH. cbn in IH.
    replace (length pre + 1)%nat with (S (length pre)) in IH by lia.
    rewrite <- !app_assoc in IH. exact IH.
  - specialize (IH (pre ++ [panel col])%list). rewrite length_app in IH. cbn in IH.
    replace (length pre + 1)%nat with (S (length pre)) in IH by lia.
    rewrite <- !app_assoc in IH. exact IH.
Qed.

Lemma savefig_eq (fig : Figure) (q : path) (dpi : nat) (bbox : string) (s : State) :
  savefig fig q dpi bbox s =
    match write_file q (Image fig dpi bbox) (fs s.2) with
    | Ok fs' => (Ok tt, (s.1, {| fs := fs'; np_random := np_random s.2; log := log s.2 |}))
    | Raise e => (Raise e, s)
    end.
Proof.
  unfold savefig, bind, get_world, lift, put_fs. cbn [fst snd].
  by destruct (write_file _ _ _).
Qed.

Lemma mkdir_eq (p : path) (s : State) :
  mkdir p s =
    match mkdir_exist_ok p (fs s.2) with
    | Ok fs' => (Ok tt, (s.1, {| fs := fs'; np_random := np_random s.2; log := log s.2 |}))
    | Raise e => (Raise e, s)
    end.
Proof.
  unfold mkdir, bind, get_world, lift, put_fs. cbn [fst snd].
  by destruct (mkdir_exist_ok _ _).
Qed.

Lemma plot_distributions_eq (df : DataFrame) (save_dir : path) (s : State) :
  plot_distributions df save_dir s =
  plot_group (numeric_cols df) (numeric_request df) (numeric_panel df)
    save_dir "distribuicoes.png" s.
Proof.
  unfold plot_distributions, plot_group. fold (numeric_cols df).
  destruct (numeric_cols df) as [|col cols] eqn:Hcols; [done|].
  rewrite decide_True by (simpl; lia). unfold bind, enumerate, subplots. cbn [fig_axes].
  pose proof (for_each_fills (plot_numeric df) (numeric_request df) (numeric_panel df)
                (col :: cols) [] [] s (plot_numeric_fills df)) as Hloop.
  cbn [length app] in Hloop. rewrite app_nil_r in Hloop.
  cbn [length]. rewrite Hloop.
  destruct (first_error _) as [e|]; [done|]. by rewrite app_nil_r.
Qed.

Lemma plot_categories_eq (df : DataFrame) (save_dir : path) (s : State) :
  plot_categories df save_dir s =
  plot_group (categorical_cols df) (categorical_request df) (categorical_panel df)
    save_dir "categoricas.png" s.
Proof.
  unfold plot_categories, plot_group. fold (categorical_cols df).
  destruct (categorical_cols df) as [|col cols] eqn:Hcols; [done|].
  rewrite decide_True by (simpl; lia). unfold bind, enumerate, subplots. cbn [fig_axes].
  pose proof (for_each_fills (plot_categorical df) (categorical_request df)
                (categorical_panel df) (col :: cols) [] [] s (plot_categorical_fills df))
    as Hloop.
  cbn [length app] in Hloop. rewrite app_nil_r in Hloop.
  cbn [length]. rewrite Hloop.
  destruct (first_error _) as [e|]; [done|]. by rewrite app_nil_r.
Qed.

(** *** What is written *)

Lemma plot_group_eq cols request panel save_dir name (s : State) :
  plot_group cols request panel save_dir name s =
    match write_group cols request panel save_dir name (fs s.2) with
    | Ok fs' => (Ok tt, (s.1, {| fs := fs'; np_random := np_random s.2; log := log s.2 |}))
    | Raise e => (Raise e, s)
    end.
Proof.
  unfold plot_group, write_group. destruct cols as [|col cols]; [by destruct s as [? []]|].
  destruct (first_error _); [done|]. apply savefig_eq.
Qed.

(** [create_visualizations] with a table at hand: [self] and the generator
    are untouched, the files are those of [render_files], and the closing
    log line is written only when nothing was raised. *)
Lemma create_visualizations_cached (save_path : path) (s : State) (df : DataFrame) :
  data s.1 = Some df →
  create_visualizations save_path s =
    ((render_files df save_path (fs s.2)).1,
     (s.1, {| fs := (render_files df save_path (fs s.2)).2;
              np_random := np_random s.2;
              log := match (render_files df save_path (fs s.2)).1 with
                     | Ok _ => log s.2 ++ [(INFO, VisualizacoesSalvas save_path)]
                     | Raise _ => log s.2
                     end |})).
Proof.
  intros Hd. unfold create_visualizations.
  unfold bind at 1. rewrite (ensure_data_cached s df Hd).
  unfold bind at 1. rewrite mkdir_eq. unfold render_files.
  destruct (mkdir_exist_ok save_path (fs s.2)) as [fs1|e]; [|by destruct s as [? []]].
  unfold bind at 1. rewrite (the_data_cached _ df) by done.
  unfold bind at 1. rewrite plot_distributions_eq, plot_group_eq. cbn [fst snd fs].
  destruct (write_group (numeric_cols df) _ _ _ _ fs1) as [fs2|e]; [|done].
  unfold bind at 1. rewrite plot_categories_eq, plot_group_eq. cbn [fst snd fs].
  destruct (write_group (categorical_cols df) _ _ _ _ fs2) as [fs3|e]; [|done].
  reflexivity.
Qed.

(** [create_visualizations] from any state: the table is the one at hand or
    the one [load_data] provides, and the files follow [render_files]. *)
Lemma create_visualizations_files (save_path : path) (s : State) :
  ∃ df : DataFrame,
    data (create_visualizations save_path s).2.1 = Some df
    ∧ (data s.1 = None → (load_data s).1 = Ok df)
    ∧ (∀ df', data s.1 = Some df' → df' = df)
    ∧ (create_visualizations save_path s).1 = (render_files df save_path (fs s.2)).1
    ∧ fs (create_visualizations save_path s).2.2 = (render_files df save_path (fs s.2)).2.
Proof.
  destruct (data s.1) as [df|] eqn:Hd.
  - exists df. rewrite (create_visualizations_cached save_path s df Hd). cbn [fst snd data fs].
    split_and!; [done | done | congruence | done | done].
  - destruct (ensure_data_fresh s Hd) as (df & s' & Hload & Hd' & Hens).
    exists df.
    assert (Hsame : create_visualizations save_path s = create_visualizations save_path s').
    { unfold create_visualizations. unfold bind at 1. rewrite Hens.
      symmetry. unfold bind at 1. by rewrite (ensure_data_cached s' df Hd'). }
    rewrite Hsame.
    rewrite (create_visualizations_cached save_path s' df Hd'). cbn [fst snd data fs].
    assert (Hfs : fs s'.2 = fs s.2).
    { pose proof (load_data_fs s) as H. by rewrite Hload in H. }
    rewrite Hfs, Hload. split_and!; [done | done | congruence | done | done].
Qed.

Lemma write_group_Ok (cols : list string) (request : string → option Plot)
    (panel : string → Axes) (save_dir : path) (name : string)
    (files files' : gmap path node) :
  write_group cols request panel save_dir name files = Ok files' →
  (cols = [] ∧ files' = files)
  ∨ (cols ≠ [] ∧ first_error (request <$> cols) = None
     ∧ files' = <[joinpath save_dir name :=
                   File (Image (saved_figure (panel <$> cols)) 300 "tight")]> files).
Proof.
  unfold write_group. destruct cols as [|col cols]; [intros [= <-]; by left|].
  destruct (first_error _) eqn:Herr; [done|]. intros H%write_file_Ok. by right.
Qed.

(** A plot group touches at most its own image. *)
Lemma write_group_other (cols : list string) (request : string → option Plot)
    (panel : string → Axes) (save_dir : path) (name : string)
    (files files' : gmap path node) (q : path) :
  write_group cols request panel save_dir name files = Ok files' →
  q ≠ joinpath save_dir name → files' !! q = files !! q.
Proof.
  intros [[_ ->]|(_ & _ & ->)]%write_group_Ok Hq; [done|]. by rewrite lookup_insert_ne.
Qed.

(** *** When the run goes through *)

Lemma backend_accepts_all (df : DataFrame) :
  (∀ p, plot_error p = None) → backend_accepts df.
Proof. intros H. split; apply first_error_None; auto. Qed.

Lemma write_group_progress (cols : list string) (request : string → option Plot)
    (panel : string → Axes) (save_dir : path) (name : string) (files : gmap path node) :
  files !! save_dir = Some (Dir true) →
  (∀ b, files !! joinpath save_dir name ≠ Some (Dir b)) →
  first_error (request <$> cols) = None →
  ∃ files', write_group cols request panel save_dir name files = Ok files'
            ∧ files' !! save_dir = Some (Dir true)
            ∧ ∀ q, q ≠ joinpath save_dir name → files' !! q = files !! q.
Proof.
  intros Hdir Hnd Herr. unfold write_group. destruct cols as [|col cols]; [eauto|].
  rewrite Herr, write_file_writable; [|done|by rewrite parent_joinpath].
  eexists. split_and!; [done| |].
  - rewrite lookup_insert_ne; [done|]. apply joinpath_ne_self.
  - intros q Hq. by rewrite lookup_insert_ne.
Qed.

(** Under these two conditions every step succeeds. *)
Lemma render_files_Ok (df : DataFrame) (save_dir : path) (files : gmap path node) :
  can_save save_dir files → backend_accepts df →
  (render_files df save_dir files).1 = Ok tt.
Proof.
  intros [Hdir Hnd] [Hnum Hcat]. unfold render_files.
  assert (Hmk : ∃ files1, mkdir_exist_ok save_dir files = Ok files1
                          ∧ files1 !! save_dir = Some (Dir true)
                          ∧ ∀ q, q ≠ save_dir → files1 !! q = files !! q).
  { destruct Hdir as [Hdir|[Hnone Hpar]].
    - rewrite (mkdir_exist_ok_existing _ _ true) by done. eauto.
    - rewrite mkdir_exist_ok_new by done. eexists. split_and!; [done|..].
      + apply lookup_insert_eq.
      + intros q Hq. by rewrite lookup_insert_ne. }
  destruct Hmk as (files1 & -> & Hdir1 & Hsame1).
  destruct (write_group_progress (numeric_cols df) (numeric_request df) (numeric_panel df)
              save_dir "distribuicoes.png" files1) as (files2 & -> & Hdir2 & Hsame2);
    [done | | done |].
  { intros b. rewrite Hsame1 by apply joinpath_ne_self. apply Hnd. }
  destruct (write_group_progress (categorical_cols df) (categorical_request df)
              (categorical_panel df) save_dir "categoricas.png" files2)
    as (files3 & -> & _ & _); [done | | done | done].
  intros b. rewrite Hsame2 by (intros H%joinpath_inj; discriminate).
  rewrite Hsame1 by apply joinpath_ne_self. apply Hnd.
Qed.

(** *** The images and the directory *)

(** Whatever happens, only the directory and the two images can change. *)
Lemma render_files_frame (df : DataFrame) (save_dir : path) (files : gmap path node)
    (q : path) :
  q ≠ save_dir → q ≠ joinpath save_dir "distribuicoes.png" →
  q ≠ joinpath save_dir "categoricas.png" →
  (render_files df save_dir files).2 !! q = files !! q.
Proof.
  intros Hq Hq1 Hq2. unfold render_files.
  destruct (mkdir_exist_ok save_dir files) as [files1|e] eqn:Hmk; [|done].
  apply mkdir_exist_ok_Ok in Hmk as (_ & Hsame & _).
  destruct (write_group (numeric_cols df) _ _ _ _ files1) as [files2|e] eqn:Hw1;
    cbn [snd]; [|by apply Hsame].
  pose proof (write_group_other _ _ _ _ _ _ _ q Hw1 Hq1) as Hsame1.
  destruct (write_group (categorical_cols df) _ _ _ _ files2) as [files3|e] eqn:Hw2;
    cbn [snd]; [|by rewrite Hsame1, Hsame].
  rewrite (write_group_other _ _ _ _ _ _ _ q Hw2 Hq2). by rewrite Hsame1, Hsame.
Qed.

(** A run that completes: the three steps, one after the other. *)
Lemma render_files_Ok_inv (df : DataFrame) (save_dir : path) (files : gmap path node) :
  (render_files df save_dir files).1 = Ok tt →
  ∃ files1 files2 files3,
    mkdir_exist_ok save_dir files = Ok files1
    ∧ write_group (numeric_cols df) (numeric_request df) (numeric_panel df)
        save_dir "distribuicoes.png" files1 = Ok files2
    ∧ write_group (categorical_cols df) (categorical_request df) (categorical_panel df)
        save_dir "categoricas.png" files2 = Ok files3
    ∧ (render_files df save_dir files).2 = files3.
Proof.
  unfold render_files.
  destruct (mkdir_exist_ok save_dir files) as [files1|e]; [|done].
  destruct (write_group (numeric_cols df) _ _ _ _ files1) as [files2|e] eqn:Hw1; [|done].
  destruct (write_group (categorical_cols df) _ _ _ _ files2) as [files3|e] eqn:Hw2; [|done].
  intros _. exists files1, files2, files3. by rewrite Hw1, Hw2.
Qed.

Lemma write_group_again (cols : list string) (request : string → option Plot)
    (panel : string → Axes) (save_dir : path) (name : string)
    (files files' files'' : gmap path node) :
  write_group cols request panel save_dir name files = Ok files' →
  files'' !! joinpath save_dir name = files' !! joinpath save_dir name →
  ∃ files3, write_group cols request panel save_dir name files'' = Ok files3
            ∧ ∀ q, q ≠ joinpath save_dir name → files3 !! q = files'' !! q.
Proof.
  intros [[-> ->]|(Hne & Herr & ->)]%write_group_Ok Hsame.
  - by exists files''.
  - unfold write_group. destruct cols as [|col cols]; [done|]. rewrite Herr.
    rewrite lookup_insert_eq in Hsame.
    erewrite write_file_over by exact Hsame. eexists. split; [done|].
    intros q Hq. by rewrite lookup_insert_ne.
Qed.

(** A run that completed can be repeated on the files it left. *)
Lemma render_files_twice (df : DataFrame) (save_dir : path) (files : gmap path node) :
  (render_files df save_dir files).1 = Ok tt →
  (render_files df save_dir (render_files df save_dir files).2).1 = Ok tt.
Proof.
  intros (files1 & files2 & files3 & Hmk & Hw1 & Hw2 & ->)%render_files_Ok_inv.
  apply mkdir_exist_ok_Ok in Hmk as ([b Hdir] & _).
  assert (Hdir3 : files3 !! save_dir = Some (Dir b)).
  { rewrite (write_group_other _ _ _ _ _ _ _ save_dir Hw2)
      by (intros H; symmetry in H; by apply joinpath_ne_self in H).
    rewrite (write_group_other _ _ _ _ _ _ _ save_dir Hw1)
      by (intros H; symmetry in H; by apply joinpath_ne_self in H).
    done. }
  unfold render_files. rewrite (mkdir_exist_ok_existing _ _ b Hdir3).
  destruct (write_group_again _ _ _ _ _ files1 files2 files3 Hw1) as (files4 & -> & Hsame4).
  { apply (write_group_other _ _ _ _ _ _ _ _ Hw2). intros H%joinpath_inj. discriminate. }
  destruct (write_group_again _ _ _ _ _ files2 files3 files4 Hw2) as (files5 & -> & _).
  { apply Hsame4. intros H%joinpath_inj. discriminate. }
  done.
Qed.

(** C6, as the code has it. The distributions image has one panel per
    numeric column, [id] included; the panel of a column other than [id]
    holds the histogram of the column with 30 bins under the title
    "Distribuição de <column>", the panel of [id] stays blank. The image is
    skipped, and no file is written at its path, when the table has no
    numeric column at all. The run completes whenever the directory can be
    used and the back end draws the plots. *)
Theorem distributions_image (dp save_path : path) (w : World) (df : DataFrame) :
  let out := create_visualizations save_path (holding dp df, w) in
  let image := joinpath save_path "distribuicoes.png" in
  (numeric_cols df = [] → fs out.2.2 !! image = fs w !! image)
  ∧ (numeric_cols df ≠ [] → out.1 = Ok tt →
     ∃ axes : list Axes,
       fs out.2.2 !! image =
         Some (File (Image {| fig_size := (15, 5); fig_axes := axes; fig_tight := true |}
                       300 "tight"))
       ∧ length axes = length (numeric_cols df)
       ∧ ∀ i col, numeric_cols df !! i = Some col →
           axes !! i =
             Some (if decide (col = "id") then blank_axes
                   else {| ax_plot := Some (Hist (getitem df col) 30);
                           ax_title := "Distribuição de " +:+ col;
                           ax_xlabel := col; ax_ylabel := "Frequência";
                           ax_xtick_rotation := 0 |}))
  ∧ (can_save save_path (fs w) → backend_accepts df → out.1 = Ok tt).
Proof.
  cbv zeta. rewrite (create_visualizations_cached save_path _ df) by done.
  cbn [fst snd fs]. split_and!.
  - intros Hnone. unfold render_files. rewrite Hnone. cbn [write_group].
    destruct (mkdir_exist_ok save_path (fs w)) as [files1|e] eqn:Hmk; [|done].
    apply mkdir_exist_ok_Ok in Hmk as (_ & Hsame & _).
    destruct (write_group (categorical_cols df) _ _ _ _ files1) as [files3|e] eqn:Hw2;
      cbn [snd]; [|by apply Hsame, joinpath_ne_self].
    rewrite (write_group_other _ _ _ _ _ _ _ _ Hw2) by (intros H%joinpath_inj; discriminate).
    apply Hsame, joinpath_ne_self.
  - intros Hcols (files1 & files2 & files3 & Hmk & Hw1 & Hw2 & ->)%render_files_Ok_inv.
    exists (numeric_panel df <$> numeric_cols df). split_and!.
    + rewrite (write_group_other _ _ _ _ _ _ _ _ Hw2) by (intros H%joinpath_inj; discriminate).
      apply write_group_Ok in Hw1 as [[? _]|(_ & _ & ->)]; [done|].
      apply lookup_insert_eq.
    + apply length_fmap.
    + intros i col Hi. rewrite list_lookup_fmap, Hi. cbn. unfold numeric_panel.
      by repeat case_decide.
  - apply render_files_Ok.
Qed.

(** C9, as the code has it. The two images are written into the output
    directory under the names [distribuicoes.png] and [categoricas.png]:
    after a run that completes, the first holds the distributions figure if
    the table has a numeric column, the second the categorical figure if it
    has a column of dtype object, category or bool. Nothing outside the
    directory entry and these two paths is created or changed. The run
    completes whenever the directory can be used and the back end draws the
    plots. *)
Theorem image_files (dp save_path : path) (w : World) (df : DataFrame) :
  let out := create_visualizations save_path (holding dp df, w) in
  let distributions := joinpath save_path "distribuicoes.png" in
  let categorical := joinpath save_path "categoricas.png" in
  (out.1 = Ok tt →
     (numeric_cols df ≠ [] →
        fs out.2.2 !! distributions =
          Some (File (Image (saved_figure (numeric_panel df <$> numeric_cols df))
                        300 "tight")))
     ∧ (categorical_cols df ≠ [] →
        fs out.2.2 !! categorical =
          Some (File (Image (saved_figure (categorical_panel df <$> categorical_cols df))
                        300 "tight"))))
  ∧ parent distributions = save_path
  ∧ parent categorical = save_path
  ∧ (∀ q, q ≠ save_path → q ≠ distributions → q ≠ categorical →
          fs out.2.2 !! q = fs w !! q)
  ∧ (can_save save_path (fs w) → backend_accepts df → out.1 = Ok tt).
Proof.
  cbv zeta. rewrite (create_visualizations_cached save_path _ df) by done.
  cbn [fst snd fs]. split_and!.
  - intros (files1 & files2 & files3 & Hmk & Hw1 & Hw2 & ->)%render_files_Ok_inv. split.
    + intros Hcols.
      rewrite (write_group_other _ _ _ _ _ _ _ _ Hw2) by (intros H%joinpath_inj; discriminate).
      apply write_group_Ok in Hw1 as [[? _]|(_ & _ & ->)]; [done|].
      apply lookup_insert_eq.
    + intros Hcols. apply write_group_Ok in Hw2 as [[? _]|(_ & _ & ->)]; [done|].
      apply lookup_insert_eq.
  - apply parent_joinpath.
  - apply parent_joinpath.
  - intros q. apply render_files_frame.
  - apply render_files_Ok.
Qed.

(** C8, as the code has it. An absent output directory is created when its
    parent is a writable directory (the call has no [parents=True]); an
    existing directory is accepted as it is, and a run that completed can be
    repeated; whatever the directory step raises, a permission failure
    included, reaches the caller, and no file is touched. *)
Theorem output_directory (save_path : path) (s : State) :
  let out := create_visualizations save_path s in
  (fs s.2 !! save_path = None → fs s.2 !! parent save_path = Some (Dir true) →
     fs out.2.2 !! save_path = Some (Dir true))
  ∧ (∀ b, fs s.2 !! save_path = Some (Dir b) →
       mkdir_exist_ok save_path (fs s.2) = Ok (fs s.2)
       ∧ fs out.2.2 !! save_path = Some (Dir b))
  ∧ (out.1 = Ok tt → (create_visualizations save_path out.2).1 = Ok tt)
  ∧ (∀ e, mkdir_exist_ok save_path (fs s.2) = Raise e →
       out.1 = Raise e ∧ fs out.2.2 = fs s.2)
  ∧ (fs s.2 !! save_path = None → fs s.2 !! parent save_path = Some (Dir false) →
       out.1 = Raise PermissionError).
Proof.
  cbv zeta. destruct (create_visualizations_files save_path s)
    as (df & Hdata & _ & _ & Hres & Hfs).
  assert (Hkeep : ∀ files1, mkdir_exist_ok save_path (fs s.2) = Ok files1 →
            (render_files df save_path (fs s.2)).2 !! save_path = files1 !! save_path).
  { intros files1 Hmk. unfold render_files. rewrite Hmk.
    destruct (write_group (numeric_cols df) _ _ _ _ files1) as [files2|e] eqn:Hw1; [|done].
    assert (files2 !! save_path = files1 !! save_path) as Hsame1.
    { apply (write_group_other _ _ _ _ _ _ _ _ Hw1).
      intros H. symmetry in H. by apply joinpath_ne_self in H. }
    destruct (write_group (categorical_cols df) _ _ _ _ files2) as [files3|e] eqn:Hw2;
      cbn [snd]; [|done].
    rewrite <- Hsame1. apply (write_group_other _ _ _ _ _ _ _ _ Hw2).
    intros H. symmetry in H. by apply joinpath_ne_self in H. }
  split_and!.
  - intros Hnone Hpar. rewrite Hfs.
    rewrite (Hkeep _ (mkdir_exist_ok_new _ _ Hnone Hpar)). apply lookup_insert_eq.
  - intros b Hdir. split; [by eapply mkdir_exist_ok_existing|].
    rewrite Hfs. by rewrite (Hkeep _ (mkdir_exist_ok_existing _ _ b Hdir)).
  - intros Hok. rewrite Hres in Hok.
    rewrite (create_visualizations_cached save_path _ df Hdata). cbn [fst].
    rewrite Hfs. by apply render_files_twice.
  - intros e Hmk. rewrite Hres, Hfs. unfold render_files. by rewrite Hmk.
  - intros Hnone Hpar. rewrite Hres. unfold render_files, mkdir_exist_ok.
    by rewrite Hnone, Hpar.
Qed.

(** C10. Every method leaves a table in [self.data]: [load_data] and
    [generate_sample_data] store the one they return; [analyze] and
    [create_visualizations], called while [self.data] is [None], first run
    [load_data] and go on with its table, which stays in [self.data]. *)
Theorem cached_table_populated (save_path : path) (s : State) :
  is_Some (data (load_data s).2.1)
  ∧ is_Some (data (generate_sample_data s).2.1)
  ∧ is_Some (data (analyze s).2.1)
  ∧ is_Some (data (create_visualizations save_path s).2.1)
  ∧ (data s.1 = None →
     ∃ (df : DataFrame) (s' : State),
       load_data s = (Ok df, s') ∧ data s'.1 = Some df
       ∧ analyze s = (Ok (analysis_of df), s')
       ∧ data (create_visualizations save_path s).2.1 = Some df).
Proof.
  split_and!.
  - destruct (load_data_Ok s) as (df & s' & -> & Hd & _).
    cbn [fst snd]. by rewrite Hd.
  - destruct (generate_sample_data_Ok s) as (df & s' & -> & Hd & _).
    cbn [fst snd]. by rewrite Hd.
  - destruct (data s.1) as [df|] eqn:Hd.
    + rewrite (analyze_cached s df Hd). cbn [fst snd]. by rewrite Hd.
    + destruct (analyze_fresh s Hd) as (df & s' & _ & Hd' & ->). cbn [fst snd]. by rewrite Hd'.
  - destruct (create_visualizations_files save_path s) as (df & -> & _). done.
  - intros Hd. destruct (analyze_fresh s Hd) as (df & s' & Hload & Hd' & Han).
    exists df, s'. split_and!; [done..|].
    destruct (create_visualizations_files save_path s) as (df' & -> & Hl & _).
    specialize (Hl Hd). rewrite Hload in Hl. cbn in Hl. congruence.
Qed.

End create_visualizations_properties.

(** * Further properties *)

(** ** More on lists, counts and dicts *)

Lemma filter_eq_nonnull (vs : list value) (v : value) :
  isnull v = false →
  filter (λ x, x = v) (filter (λ x, isnull x = false) vs) = filter (λ x, x = v) vs.
Proof.
  intros Hv. induction vs as [|x vs IH]; [done|].
  rewrite (filter_cons (λ x, isnull x = false)). case_decide as Hx.
  - rewrite !filter_cons. case_decide; by rewrite IH.
  - rewrite (filter_cons (λ x, x = v)), decide_False; [done|]. congruence.
Qed.

Lemma occurrences_not_elem (v : value) (l : list value) : v ∉ l → occurrences v l = 0%nat.
Proof.
  intros Hnin. unfold occurrences. destruct (filter (λ x, x = v) l) as [|y l'] eqn:Hf; [done|].
  assert (Hy : y ∈ filter (λ x, x = v) l) by (rewrite Hf; apply elem_of_cons; by left).
  apply list_elem_of_filter in Hy as [-> Hy]. done.
Qed.

Lemma occurrences_cons (v x : value) (l : list value) :
  occurrences v (x :: l) = ((if decide (x = v) then 1 else 0) + occurrences v l)%nat.
Proof. unfold occurrences. rewrite filter_cons. by case_decide. Qed.

(** One more cell [x] adds one to the sum of the counts of any list of
    distinct values that has [x]. *)
Lemma sum_occurrences_cons (x : value) (l L : list value) :
  NoDup L →
  sum_list_with (λ v, occurrences v (x :: l)) L =
  (sum_list_with (λ v, occurrences v l) L + (if decide (x ∈ L) then 1 else 0))%nat.
Proof.
  induction 1 as [|y L Hy Hnd IH]; [done|].
  cbn [sum_list_with]. rewrite IH, occurrences_cons.
  destruct (decide (x = y)) as [->|Hne].
  - rewrite (decide_True (P := y ∈ y :: L)) by (apply elem_of_cons; by left).
    rewrite (decide_False (P := y ∈ L)) by done. lia.
  - destruct (decide (x ∈ L)) as [Hin|Hnin].
    + rewrite (decide_True (P := x ∈ y :: L)) by (apply elem_of_cons; by right). lia.
    + rewrite (decide_False (P := x ∈ y :: L)); [lia|].
      intros [?|?]%elem_of_cons; congruence.
Qed.

(** Adding up, over the distinct values of a list, how often each occurs
    gives the length of the list. *)
Lemma sum_occurrences (l : list value) :
  sum_list_with (λ v, occurrences v l) (remove_dups l) = length l.
Proof.
  induction l as [|x l IH]; [done|].
  cbn [remove_dups]. destruct (decide_rel elem_of x l) as [Hin|Hnin].
  - rewrite sum_occurrences_cons by apply NoDup_remove_dups. rewrite IH.
    rewrite decide_True by (by apply elem_of_remove_dups). simpl. lia.
  - cbn [sum_list_with]. rewrite sum_occurrences_cons by apply NoDup_remove_dups.
    rewrite IH, decide_False by (by rewrite elem_of_remove_dups).
    rewrite occurrences_cons, decide_True by done.
    rewrite occurrences_not_elem by done. simpl. lia.
Qed.

(** The counts of [value_counts] add up to the number of cells that are not
    missing. *)
Lemma sum_value_counts (vs : list value) :
  sum_list_with snd (value_counts vs) = count_present vs.
Proof.
  unfold value_counts, count_present. rewrite merge_sort_Permutation.
  set (l := filter (λ v, isnull v = false) vs).
  rewrite <- (sum_occurrences l).
  assert (Hsame : ∀ L : list value, Forall (λ v, isnull v = false) L →
            sum_list_with snd ((λ v, (v, occurrences v vs)) <$> L)
            = sum_list_with (λ v, occurrences v l) L).
  { induction 1 as [|v L Hv _ IH]; [done|]. cbn [fmap list_fmap sum_list_with snd].
    rewrite IH. f_equal. unfold occurrences, l. by rewrite filter_eq_nonnull. }
  apply Hsame. apply Forall_forall. intros v Hv.
  rewrite elem_of_remove_dups in Hv. unfold l in Hv. by apply list_elem_of_filter in Hv as [? _].
Qed.



(** A column whose cells are all missing has none. *)
Lemma value_counts_all_missing (vs : list value) :
  Forall (λ v, isnull v = true) vs → value_counts vs = [].
Proof.
  intros Hall. destruct (value_counts vs) as [|[v n] l] eqn:Hvc; [done|].
  assert (H : (v, n) ∈ value_counts vs) by (rewrite Hvc; apply elem_of_cons; by left).
  apply elem_of_value_counts in H as (Hin & Hv & _).
  rewrite Forall_forall in Hall. specialize (Hall v Hin). congruence.
Qed.

Lemma dom_to_dict {A B} (key : A → string) (val : A → B) (l : list A) :
  dom (to_dict key val l) = list_to_set (key <$> l).
Proof.
  apply set_eq. intros k. rewrite elem_of_dom, lookup_to_dict_is_Some.
  by rewrite elem_of_list_to_set.
Qed.


Lemma count_missing_le (vs : list value) : (count_missing vs ≤ length vs)%nat.
Proof. unfold count_missing. apply length_filter. Qed.




Lemma count_present_all (vs : list value) :
  Forall (λ v, isnull v = false) vs → count_present vs = length vs.
Proof.
  unfold count_present. induction 1 as [|v vs Hv _ IH]; [done|].
  rewrite filter_cons, decide_True by done. simpl. by rewrite IH.
Qed.

(** ** More on [generate_sample_data] and [load_data] *)

Section further_loading.
Context `{Env : Environment}.

(** The table of [generate_sample_data], column by column. *)
Lemma generate_sample_data_layout (s : State) :
  ∃ (df : DataFrame) (st : rng_state) (cat : list string) (val : list Z) (atv : list bool),
    generate_sample_data s =
      (Ok df,
       ({| data_path := data_path s.1; data := Some df |},
        {| fs := fs s.2; np_random := st;
           log := log s.2 ++ [(INFO, DadosDeExemploGerados (1000, 5)%nat)] |}))
    ∧ shape df = (1000, 5)%nat
    ∧ (λ c, (col_name c, col_dtype c)) <$> df_data df =
        [("id", int64); ("categoria", object_); ("valor", float64);
         ("data", datetime64); ("ativo", bool_)]
    ∧ well_formed df
    ∧ numeric_cols df = ["id"; "valor"]
    ∧ categorical_cols df = ["categoria"; "ativo"]
    ∧ columns (select_dtypes [sel_object; sel_category] df) = ["categoria"]
    ∧ getitem df "id" = VInt <$> seqZ 1 1000
    ∧ getitem df "categoria" = VStr <$> cat
    ∧ getitem df "valor" = VFloat <$> val
    ∧ getitem df "data" = VDate <$> seqZ date_2023_01_01 1000
    ∧ getitem df "ativo" = VBool <$> atv
    ∧ length cat = 1000%nat ∧ Forall (λ c, c ∈ ["A"; "B"; "C"; "D"]) cat
    ∧ length val = 1000%nat ∧ Forall (λ bits, is_nan bits = false) val
    ∧ length atv = 1000%nat.
Proof.
  destruct (generate_sample_data_run s)
    as (cat & val & atv & st & Hrun & Hlc & Hcat & Hlv & Hval & Hla).
  cbv zeta in Hrun. eexists _, st, cat, val, atv. split; [exact Hrun|].
  split_and!; try done.
  repeat apply Forall_cons_2; try apply Forall_nil_2; cbn [col_values df_index];
    rewrite length_fmap; first [done | by rewrite length_seqZ].
Qed.

(** X5. The synthetic table, column by column: the labels and dtypes in order,
    every column as long as the index, the [data] column the 1000 consecutive
    days from 2023-01-01, the [valor] cells doubles that are not NaN, the
    [ativo] cells booleans. *)
Theorem generate_sample_data_columns (s : State) :
  ∃ (df : DataFrame) (s' : State),
    generate_sample_data s = (Ok df, s')
    ∧ (λ c, (col_name c, col_dtype c)) <$> df_data df =
        [("id", int64); ("categoria", object_); ("valor", float64);
         ("data", datetime64); ("ativo", bool_)]
    ∧ well_formed df
    ∧ length (getitem df "data") = 1000%nat
    ∧ (∀ i : nat, (i < 1000)%nat →
         getitem df "data" !! i = Some (VDate (date_2023_01_01 + Z.of_nat i)))
    ∧ Forall (λ v, ∃ bits, v = VFloat bits ∧ is_nan bits = false) (getitem df "valor")
    ∧ Forall (λ v, ∃ b, v = VBool b) (getitem df "ativo").
Proof.
  destruct (generate_sample_data_layout s)
    as (df & st & cat & val & atv & Hrun & _ & Hcols & Hwf & _ & _ & _ & _ & _
        & Hvalor & Hdata & Hativo & _ & _ & _ & Hval & _).
  exists df. eexists. split; [exact Hrun|]. split_and!; [done | done | | | |].
  - rewrite Hdata, length_fmap, length_seqZ. done.
  - intros i Hi. rewrite Hdata, list_lookup_fmap, lookup_seqZ_lt by lia. done.
  - rewrite Hvalor. apply Forall_fmap. eapply Forall_impl; [exact Hval|].
    intros bits Hb. cbn. eauto.
  - rewrite Hativo. apply Forall_fmap, Forall_forall. intros b _. cbn. eauto.
Qed.

(** X4. What [generate_sample_data] does besides returning the table: the files
    and the path of the object stay, the log grows by one line, and the
    global generator is left in one and the same state whatever state it
    was in before. *)
Theorem generate_sample_data_effects (s1 s2 : State) :
  fs (generate_sample_data s1).2.2 = fs s1.2
  ∧ data_path (generate_sample_data s1).2.1 = data_path s1.1
  ∧ log (generate_sample_data s1).2.2 =
      log s1.2 ++ [(INFO, DadosDeExemploGerados (1000, 5)%nat)]
  ∧ np_random (generate_sample_data s1).2.2 = np_random (generate_sample_data s2).2.2.
Proof.
  split_and!; [| | |apply generate_sample_data_generator];
    destruct (generate_sample_data_layout s1) as (df & st & cat & val & atv & -> & _); done.
Qed.

(** X3. The log of [load_data], path by path; the files and the path of the
    object are never touched. A file that is read is returned as parsed,
    whatever its shape, and the generator is not consulted. *)
Theorem load_data_log (s : State) :
  fs (load_data s).2.2 = fs s.2
  ∧ data_path (load_data s).2.1 = data_path s.1
  ∧ match fs s.2 !! data_path s.1 with
    | None =>
        log (load_data s).2.2 =
          log s.2 ++ [(WARNING, ArquivoNaoEncontrado);
                      (INFO, DadosDeExemploGerados (1000, 5)%nat)]
    | Some _ =>
        match (read_csv (data_path s.1) s).1 with
        | Ok df =>
            (load_data s).1 = Ok df
            ∧ data (load_data s).2.1 = Some df
            ∧ np_random (load_data s).2.2 = np_random s.2
            ∧ log (load_data s).2.2 = log s.2 ++ [(INFO, DadosCarregados (shape df))]
        | Raise e =>
            log (load_data s).2.2 =
              log s.2 ++ [(ERROR, ErroAoCarregar e);
                          (INFO, DadosDeExemploGerados (1000, 5)%nat)]
        end
    end.
Proof.
  assert (Hfallback : ∀ l msg,
    load_data s = generate_sample_data (logged l msg s) →
    data_path (load_data s).2.1 = data_path s.1
    ∧ log (load_data s).2.2 =
        log s.2 ++ [(l, msg); (INFO, DadosDeExemploGerados (1000, 5)%nat)]).
  { intros l msg ->.
    destruct (generate_sample_data_layout (logged l msg s))
      as (df & st & cat & val & atv & -> & _).
    cbn [fst snd data_path log logged logger]. by rewrite <- app_assoc. }
  split; [apply load_data_fs|].
  pose proof (read_csv_result s) as Hread.
  destruct (fs s.2 !! data_path s.1) as [n|] eqn:Hnode.
  - destruct ((read_csv (data_path s.1) s).1) as [df|e] eqn:Hres.
    + destruct n as [w|c]; [done|]. symmetry in Hread.
      rewrite (load_data_parsed s c df Hnode Hread). done.
    + destruct (Hfallback ERROR (ErroAoCarregar e)) as [? ?]; [|done].
      apply load_data_failed; [rewrite Hnode; eauto | done].
  - destruct (Hfallback WARNING ArquivoNaoEncontrado) as [? ?]; [|done].
    by apply load_data_missing.
Qed.

End further_loading.

(** ** More on [analyze] *)

Section further_analysis.
Context `{Env : Environment}.



(** X7. In a table with distinct labels, the [dtypes] and [missing_values] of
    [analyze] have the labels of the table as keys, and map the label of
    each column to its dtype and to the number of its missing cells, which
    is at most the number of rows in a well-formed table. *)
Theorem analyze_dtypes_missing (p : path) (w : World) (df : DataFrame) :
  unique_columns df →
  ∃ (r : gmap string entry) (dt : gmap string dtype) (mv : gmap string nat),
    (analyze (holding p df, w)).1 = Ok r
    ∧ r !! "dtypes" = Some (Dtypes dt)
    ∧ r !! "missing_values" = Some (MissingValues mv)
    ∧ dom dt = list_to_set (columns df)
    ∧ dom mv = list_to_set (columns df)
    ∧ Forall (λ c, dt !! col_name c = Some (col_dtype c)
                   ∧ mv !! col_name c = Some (count_missing (col_values c))
                   ∧ (well_formed df → count_missing (col_values c) ≤ df_index df)%nat)
        (df_data df).
Proof.
  intros Huniq. exists (analysis_of df), (dtypes df), (missing_values df).
  split; [by erewrite analyze_cached|]. split_and!; [done | done | | |].
  - apply dom_to_dict.
  - apply dom_to_dict.
  - apply Forall_forall. intros c Hc. split_and!.
    + by apply lookup_to_dict_unique.
    + unfold missing_values, count_missing.
      by rewrite (lookup_to_dict_unique col_name _ (df_data df) c).
    + intros Hwf. unfold well_formed in Hwf. rewrite Forall_forall in Hwf.
      rewrite <- (Hwf c Hc). apply count_missing_le.
Qed.



(** X10. [analyze] right after [generate_sample_data] (the test [test_analyze]):
    shape (1000, 5), the five labels, a numeric summary that is the dict of
    [describe], and an entry for [categoria] whose values are among A, B, C,
    D, at most four of them, with counts that add up to 1000. *)
Theorem analyze_sample (s : State) :
  ∃ (df : DataFrame) (s' : State) (r : gmap string entry)
    (m : gmap string (list (value * nat))) (freq : list (value * nat)),
    generate_sample_data s = (Ok df, s')
    ∧ analyze s' = (Ok r, s')
    ∧ r !! "shape" = Some (Shape (1000, 5)%nat)
    ∧ r !! "columns" = Some (Columns ["id"; "categoria"; "valor"; "data"; "ativo"])
    ∧ r !! "numeric_summary" = Some (NumericSummary (Describe df))
    ∧ r !! "categorical_summary" = Some (CategoricalSummary m)
    ∧ m !! "categoria" = Some freq
    ∧ Forall (λ vn, vn.1 ∈ [VStr "A"; VStr "B"; VStr "C"; VStr "D"]) freq
    ∧ (length freq ≤ 4)%nat
    ∧ sum_list_with snd freq = 1000%nat.
Proof.
  destruct (generate_sample_data_layout s)
    as (df & st & cat & val & atv & Hrun & Hshape & Hcols & _ & Hnum & _ & Hobj & _
        & Hcat & _ & _ & _ & Hlc & Hin & _).
  exists df. eexists. exists (analysis_of df). eexists.
  exists (value_counts (getitem df "categoria")).
  split; [exact Hrun|]. split; [by apply analyze_cached|].
  assert (Hfreq : Forall (λ vn, vn.1 ∈ [VStr "A"; VStr "B"; VStr "C"; VStr "D"])
                    (value_counts (getitem df "categoria"))).
  { apply Forall_forall. intros [v n] Hvn.
    apply elem_of_value_counts in Hvn as (Hv & _). rewrite Hcat in Hv.
    apply list_elem_of_fmap in Hv as (c & -> & Hc). rewrite Forall_forall in Hin.
    apply (list_elem_of_fmap_2 VStr) in Hc as Hc'. specialize (Hin c Hc). cbn.
    by apply (list_elem_of_fmap_2 VStr) in Hin. }
  split_and!.
  - rewrite <- Hshape. done.
  - replace (["id"; "categoria"; "valor"; "data"; "ativo"])
      with (fst <$> ((λ c, (col_name c, col_dtype c)) <$> df_data df)) by (by rewrite Hcols).
    rewrite <- list_fmap_compose. done.
  - rewrite numeric_summary_of. fold (numeric_cols df). by rewrite Hnum.
  - apply categorical_summary_of.
  - rewrite Hobj. done.
  - exact Hfreq.
  - pose proof (NoDup_value_counts (getitem df "categoria")) as Hnd.
    assert (Hsub : (value_counts (getitem df "categoria")).*1
                   ⊆ [VStr "A"; VStr "B"; VStr "C"; VStr "D"]).
    { intros v Hv. apply list_elem_of_fmap in Hv as ([v' n] & -> & Hvn).
      rewrite Forall_forall in Hfreq. by apply (Hfreq _ Hvn). }
    pose proof (submseteq_length _ _ (NoDup_submseteq _ _ Hnd Hsub)) as Hlen.
    rewrite length_fmap in Hlen. exact Hlen.
  - rewrite sum_value_counts, Hcat, count_present_all; [by rewrite length_fmap|].
    apply Forall_fmap, Forall_forall. by intros c _.
Qed.



End further_analysis.

(** ** More on [create_visualizations] *)

Section further_rendering.
Context `{Env : Environment}.

Lemma first_error_Some (reqs : list (option Plot)) (p : Plot) (e : exn) :
  Some p ∈ reqs → plot_error p = Some e → is_Some (first_error reqs).
Proof.
  intros Hin He. induction reqs as [|[q|] reqs IH]; [by apply elem_of_nil in Hin|..];
    cbn [first_error].
  - destruct (plot_error q) as [e'|] eqn:Hq; [eauto|].
    apply IH. apply elem_of_cons in Hin as [[= ->]|Hin]; [congruence|done].
  - apply IH. by apply elem_of_cons in Hin as [?|Hin].
Qed.

(** The directory step under [can_save]. *)
Lemma mkdir_can_save (save_dir : path) (files : gmap path node) :
  can_save save_dir files →
  ∃ files1, mkdir_exist_ok save_dir files = Ok files1
            ∧ files1 !! save_dir = Some (Dir true)
            ∧ ∀ q, q ≠ save_dir → files1 !! q = files !! q.
Proof.
  intros [[Hdir|[Hnone Hpar]] _].
  - rewrite (mkdir_exist_ok_existing _ _ true) by done. eauto.
  - rewrite mkdir_exist_ok_new by done. eexists. split_and!; [done|..].
    + apply lookup_insert_eq.
    + intros q Hq. by rewrite lookup_insert_ne.
Qed.


(** A group that wrote its image writes the same files again. *)
Lemma write_group_same (cols : list string) (request : string → option Plot)
    (panel : string → Axes) (save_dir : path) (name : string)
    (files files' files'' : gmap path node) :
  write_group cols request panel save_dir name files = Ok files' →
  files'' !! joinpath save_dir name = files' !! joinpath save_dir name →
  write_group cols request panel save_dir name files'' = Ok files''.
Proof.
  intros [[-> ->]|(Hne & Herr & ->)]%write_group_Ok Hsame; [done|].
  unfold write_group. destruct cols as [|col cols]; [done|]. rewrite Herr.
  rewrite lookup_insert_eq in Hsame.
  erewrite write_file_over by exact Hsame. by rewrite insert_id.
Qed.

Lemma render_files_again (df : DataFrame) (save_dir : path) (files : gmap path node) :
  (render_files df save_dir files).1 = Ok tt →
  render_files df save_dir (render_files df save_dir files).2 =
    (Ok tt, (render_files df save_dir files).2).
Proof.
  intros (files1 & files2 & files3 & Hmk & Hw1 & Hw2 & ->)%render_files_Ok_inv.
  apply mkdir_exist_ok_Ok in Hmk as ([b Hdir] & _).
  assert (Hne : ∀ name, save_dir ≠ joinpath save_dir name).
  { intros name H. symmetry in H. by apply joinpath_ne_self in H. }
  assert (Hdir3 : files3 !! save_dir = Some (Dir b)).
  { rewrite (write_group_other _ _ _ _ _ _ _ save_dir Hw2) by apply Hne.
    by rewrite (write_group_other _ _ _ _ _ _ _ save_dir Hw1) by apply Hne. }
  unfold render_files. rewrite (mkdir_exist_ok_existing _ _ b Hdir3).
  rewrite (write_group_same _ _ _ _ _ files1 files2 files3 Hw1).
  - by rewrite (write_group_same _ _ _ _ _ files2 files3 files3 Hw2).
  - apply (write_group_other _ _ _ _ _ _ _ _ Hw2). intros H%joinpath_inj. discriminate.
Qed.



(** X13. A refused histogram ends the run: when the back end refuses the
    histogram of some numeric column other than [id], the call raises, no
    image is written (neither path changes) and the closing line is not
    logged. *)
Theorem refused_histogram (dp save_path : path) (w : World) (df : DataFrame)
    (col : string) (e : exn) :
  col ∈ numeric_cols df → col ≠ "id" →
  plot_error (Hist (getitem df col) 30) = Some e →
  let out := create_visualizations save_path (holding dp df, w) in
  (∃ e', out.1 = Raise e')
  ∧ fs out.2.2 !! joinpath save_path "distribuicoes.png"
    = fs w !! joinpath save_path "distribuicoes.png"
  ∧ fs out.2.2 !! joinpath save_path "categoricas.png"
    = fs w !! joinpath save_path "categoricas.png"
  ∧ log out.2.2 = log w.
Proof.
  intros Hcol Hid Herr. cbv zeta.
  rewrite (create_visualizations_cached save_path _ df) by done. cbn [fst snd fs log].
  assert (Hfirst : is_Some (first_error (numeric_request df <$> numeric_cols df))).
  { apply (first_error_Some _ (Hist (getitem df col) 30) e); [|done].
    apply list_elem_of_fmap. exists col. split; [|done].
    unfold numeric_request. by rewrite decide_True. }
  destruct Hfirst as [e' He']. unfold render_files.
  destruct (mkdir_exist_ok save_path (fs w)) as [files1|e0] eqn:Hmk;
    [|cbn [fst snd]; split_and!; eauto].
  apply mkdir_exist_ok_Ok in Hmk as (_ & Hsame & _).
  assert (Hw : write_group (numeric_cols df) (numeric_request df) (numeric_panel df)
                 save_path "distribuicoes.png" files1 = Raise e').
  { unfold write_group. destruct (numeric_cols df); [by apply elem_of_nil in Hcol|].
    by rewrite He'. }
  rewrite Hw. cbn [fst snd]. split_and!; [by eauto | | | done]; apply Hsame, joinpath_ne_self.
Qed.

(** X14. A refused bar chart ends the run after the first image: when the
    directory can be used and the histograms are drawn, but the back end
    refuses the bar chart of some categorical column, the call raises, the
    distributions image is already written and stays, the categorical image
    is not written and the closing line is not logged. *)
Theorem refused_bar_chart (dp save_path : path) (w : World) (df : DataFrame)
    (col : string) (e : exn) :
  can_save save_path (fs w) →
  first_error (numeric_request df <$> numeric_cols df) = None →
  col ∈ categorical_cols df →
  plot_error (Bar (value_counts (getitem df col))) = Some e →
  let out := create_visualizations save_path (holding dp df, w) in
  (∃ e', out.1 = Raise e')
  ∧ (numeric_cols df ≠ [] →
       fs out.2.2 !! joinpath save_path "distribuicoes.png" =
         Some (File (Image (saved_figure (numeric_panel df <$> numeric_cols df))
                       300 "tight")))
  ∧ fs out.2.2 !! joinpath save_path "categoricas.png"
    = fs w !! joinpath save_path "categoricas.png"
  ∧ log out.2.2 = log w.
Proof.
  intros Hsave Hnum Hcol Herr. cbv zeta.
  rewrite (create_visualizations_cached save_path _ df) by done. cbn [fst snd fs log].
  assert (Hfirst : is_Some (first_error (categorical_request df <$> categorical_cols df))).
  { apply (first_error_Some _ (Bar (value_counts (getitem df col))) e); [|done].
    apply list_elem_of_fmap. by exists col. }
  destruct Hfirst as [e' He'].
  destruct (mkdir_can_save _ _ Hsave) as (files1 & Hmk & Hdir1 & Hsame1).
  destruct (write_group_progress (numeric_cols df) (numeric_request df) (numeric_panel df)
              save_path "distribuicoes.png" files1) as (files2 & Hw1 & Hdir2 & Hsame2);
    [done | | done |].
  { intros b. rewrite Hsame1 by apply joinpath_ne_self. apply Hsave. }
  assert (Hw2 : write_group (categorical_cols df) (categorical_request df)
                  (categorical_panel df) save_path "categoricas.png" files2 = Raise e').
  { unfold write_group. destruct (categorical_cols df); [by apply elem_of_nil in Hcol|].
    by rewrite He'. }
  unfold render_files. rewrite Hmk, Hw1, Hw2. cbn [fst snd].
  split_and!; [by eauto | | | done].
  - intros Hcols. apply write_group_Ok in Hw1 as [[? _]|(_ & _ & ->)]; [done|].
    apply lookup_insert_eq.
  - rewrite Hsame2 by (intros H%joinpath_inj; discriminate).
    apply Hsame1, joinpath_ne_self.
Qed.

(** X15. Nothing to plot: for a table with no numeric and no categorical column
    (the empty table, or one of dates only) the call makes sure the directory
    is there, writes no image, logs the closing line and returns. *)
Theorem nothing_to_plot (dp save_path : path) (w : World) (df : DataFrame)
    (files1 : gmap path node) :
  numeric_cols df = [] → categorical_cols df = [] →
  mkdir_exist_ok save_path (fs w) = Ok files1 →
  create_visualizations save_path (holding dp df, w) =
    (Ok tt, (holding dp df,
             {| fs := files1; np_random := np_random w;
                log := log w ++ [(INFO, VisualizacoesSalvas save_path)] |}))
  ∧ (∀ q, q ≠ save_path → files1 !! q = fs w !! q).
Proof.
  intros Hnum Hcat Hmk. split.
  - rewrite (create_visualizations_cached save_path _ df) by done. cbn [fst snd fs log np_random].
    unfold render_files. rewrite Hmk, Hnum, Hcat. done.
  - by apply mkdir_exist_ok_Ok in Hmk as (_ & Hsame & _).
Qed.

(** X16. Rendering twice: a run that completed can be repeated at once; the second
    run leaves every file exactly as the first did and logs the closing line
    once more. *)
Theorem rerun_same_files (dp save_path : path) (w : World) (df : DataFrame) :
  let out := create_visualizations save_path (holding dp df, w) in
  out.1 = Ok tt →
  create_visualizations save_path out.2 =
    (Ok tt, (out.2.1,
             {| fs := fs out.2.2; np_random := np_random out.2.2;
                log := log out.2.2 ++ [(INFO, VisualizacoesSalvas save_path)] |})).
Proof.
  cbv zeta. rewrite (create_visualizations_cached save_path _ df) by done.
  cbn [fst snd]. intros Hok.
  rewrite (create_visualizations_cached save_path _ df) by done. cbn [fst snd fs log np_random].
  by rewrite (render_files_again df save_path (fs w) Hok).
Qed.

(** X17. The output path is taken: when a regular file sits at the output path the
    call raises [FileExistsError], and when the parent of an absent output
    path is a regular file it raises [NotADirectoryError]; in both cases no
    file is touched. *)
Theorem output_path_taken (save_path : path) (s : State) (c : content) :
  fs s.2 !! save_path = Some (File c)
  ∨ (fs s.2 !! save_path = None ∧ fs s.2 !! parent save_path = Some (File c)) →
  let out := create_visualizations save_path s in
  out.1 = match fs s.2 !! save_path with
          | Some _ => Raise FileExistsError
          | None => Raise NotADirectoryError
          end
  ∧ fs out.2.2 = fs s.2.
Proof.
  intros Hcase. cbv zeta.
  destruct (create_visualizations_files save_path s) as (df & _ & _ & _ & -> & ->).
  unfold render_files, mkdir_exist_ok.
  destruct Hcase as [->|[-> ->]]; done.
Qed.


End further_rendering.

(** ** [main] *)

Section main_properties.
Context `{Env : Environment}.

(** [main], once the table [load_data] returns is known. *)
Lemma main_after_load (w : World) (df : DataFrame) (s1 : State) :
  load_data (init default_data_path, w) = (Ok df, s1) → data s1.1 = Some df →
  main w =
    (match (create_visualizations default_save_path s1).1 with
     | Ok _ => Ok (analysis_of df)
     | Raise e => Raise e
     end,
     (create_visualizations default_save_path s1).2,
     LogInfo "Iniciando análise de dados..." :: report df ++
     match (create_visualizations default_save_path s1).1 with
     | Ok _ => [LogInfo "Análise concluída com sucesso!"]
     | Raise _ => []
     end).
Proof.
  intros Hload Hd. unfold main, main_bind, emit, call, subscript.
  rewrite Hload, (analyze_cached s1 df Hd).
  change (analysis_of df !! "shape") with (Some (Shape (shape df))).
  change (analysis_of df !! "columns") with (Some (Columns (columns df))).
  change (analysis_of df !! "missing_values") with (Some (MissingValues (missing_values df))).
  unfold main_ret.
  destruct (create_visualizations default_save_path s1) as [[[]|e] s2]; reflexivity.
Qed.

(** X1. [main] as a whole: it loads once, and the table [load_data] returns is
    the one analysed, reported and rendered. The report (shape, columns,
    missing values) is always printed; after it, whatever
    [create_visualizations] raises reaches the caller of [main], and only a
    complete run logs the closing line and returns the analysis. *)
Theorem main_outcome (w : World) :
  ∃ (df : DataFrame) (s1 : State),
    load_data (init default_data_path, w) = (Ok df, s1)
    ∧ data (main w).1.2.1 = Some df
    ∧ (main w).1.2 = (create_visualizations default_save_path s1).2
    ∧ match (create_visualizations default_save_path s1).1 with
      | Ok _ =>
          (main w).1.1 = Ok (analysis_of df)
          ∧ (main w).2 =
              LogInfo "Iniciando análise de dados..." :: report df
              ++ [LogInfo "Análise concluída com sucesso!"]
      | Raise e =>
          (main w).1.1 = Raise e
          ∧ (main w).2 = LogInfo "Iniciando análise de dados..." :: report df
      end.
Proof.
  destruct (load_data_Ok (init default_data_path, w)) as (df & s1 & Hload & Hd & _).
  exists df, s1. rewrite (main_after_load w df s1 Hload Hd). cbn [fst snd].
  split; [done|]. split.
  - by rewrite (create_visualizations_cached _ s1 df Hd).
  - split; [done|].
    destruct (create_visualizations default_save_path s1).1 as [[]|e];
      by rewrite ?app_nil_r.
Qed.


End main_properties.

(** * The model, run *)

Example analysis_of_empty_frame_shape :
  analysis_of empty_frame !! "shape" = Some (Shape (0, 0)%nat).
Proof. reflexivity. Qed.

Example load_data_without_file :
  shape_of (load_data fresh_state).1 = Some (1000, 5)%nat
  ∧ log (load_data fresh_state).2.2 =
      [(WARNING, ArquivoNaoEncontrado); (INFO, DadosDeExemploGerados (1000, 5)%nat)].
Proof. split; vm_compute; reflexivity. Qed.

Example load_data_with_file :
  let s := (init ["data"; "sample_data.csv"],
            world_with_csv ("nome,cidade" +:+ String (Ascii.ascii_of_nat 10)
                            ("ana,recife" +:+ String (Ascii.ascii_of_nat 10) EmptyString))) in
  (load_data s).1 =
    Ok {| df_index := 1;
          df_data := [ {| col_name := "nome"; col_dtype := object_; col_values := [VStr "ana"] |};
                       {| col_name := "cidade"; col_dtype := object_;
                          col_values := [VStr "recife"] |} ] |}.
Proof. vm_compute. reflexivity. Qed.

Example load_data_with_empty_file :
  let s := (init ["data"; "sample_data.csv"], world_with_csv EmptyString) in
  shape_of (load_data s).1 = Some (1000, 5)%nat
  ∧ log (load_data s).2.2 =
      [(ERROR, ErroAoCarregar EmptyDataError); (INFO, DadosDeExemploGerados (1000, 5)%nat)].
Proof. split; vm_compute; reflexivity. Qed.

Example value_counts_runs :
  value_counts [VStr "B"; VStr "A"; VNone; VStr "A"] = [(VStr "A", 2%nat); (VStr "B", 1%nat)].
Proof. vm_compute. reflexivity. Qed.

Example create_visualizations_runs :
  let out := create_visualizations ["plots"] (holding [] mixed_frame, empty_world) in
  out.1 = Ok tt
  ∧ size (fs out.2.2) = 4%nat
  ∧ fs out.2.2 !! ["plots"] = Some (Dir true)
  ∧ log out.2.2 = [(INFO, VisualizacoesSalvas ["plots"])].
Proof. vm_compute. split_and!; reflexivity. Qed.

(** * The statements, at concrete inputs *)

(** A directory directly below the empty working directory can be used. *)
Lemma can_save_empty_world (name : string) : can_save [name] (fs empty_world).
Proof.
  split.
  - right. cbn [fs empty_world]. split.
    + by apply lookup_singleton_ne.
    + apply lookup_singleton_eq.
  - intros name' b. cbn [fs empty_world]. rewrite lookup_singleton_ne; [done|].
    unfold joinpath. done.
Qed.

(** [load_data] with no file at the default path: the synthetic table. *)
Lemma load_data_never_raises_witness :
  ∃ (df : DataFrame) (s' : State),
    load_data fresh_state = (Ok df, s')
    ∧ data s'.1 = Some df
    ∧ shape df = (1000, 5)%nat
    ∧ (generate_sample_data fresh_state).1 = Ok df.
Proof.
  destruct (load_data_never_raises fresh_state) as (df & s' & Hrun & Hdata & Hmissing).
  exists df, s'. split; [exact Hrun|]. split; [exact Hdata|].
  apply Hmissing. left. reflexivity.
Defined.





(** C6, the claim as stated fails: in [ids_frame] no numeric column is left
    once [id] is set aside, yet the image is written, with one blank panel. *)
Lemma distributions_image_written_for_id :
  filter (λ col, col ≠ "id") (numeric_cols ids_frame) = []
  ∧ fs empty_world !! ["plots"; "distribuicoes.png"] = None
  ∧ (create_visualizations ["plots"] (holding [] ids_frame, empty_world)).1 = Ok tt
  ∧ fs (create_visualizations ["plots"] (holding [] ids_frame, empty_world)).2.2
      !! ["plots"; "distribuicoes.png"]
    = Some (File (Image {| fig_size := (15, 5); fig_axes := [blank_axes]; fig_tight := true |}
                    300 "tight")).
Proof. split_and!; vm_compute; reflexivity. Qed.

(** The amended statement of C6, at [mixed_frame]: two panels, the one of
    [id] blank, the one of [valor] with its histogram. *)
Lemma distributions_image_witness :
  can_save ["plots"] (fs empty_world)
  ∧ backend_accepts (Env := lcg_env) mixed_frame
  ∧ (create_visualizations ["plots"] (holding [] mixed_frame, empty_world)).1 = Ok tt
  ∧ ∃ axes : list Axes,
      fs (create_visualizations ["plots"] (holding [] mixed_frame, empty_world)).2.2
        !! ["plots"; "distribuicoes.png"]
      = Some (File (Image {| fig_size := (15, 5); fig_axes := axes; fig_tight := true |}
                      300 "tight"))
      ∧ axes !! 0%nat = Some blank_axes
      ∧ axes !! 1%nat =
          Some {| ax_plot := Some (Hist (getitem mixed_frame "valor") 30);
                  ax_title := "Distribuição de valor";
                  ax_xlabel := "valor"; ax_ylabel := "Frequência";
                  ax_xtick_rotation := 0 |}.
Proof.
  assert (Hsave : can_save ["plots"] (fs empty_world)) by apply can_save_empty_world.
  assert (Hacc : backend_accepts (Env := lcg_env) mixed_frame) by (split; reflexivity).
  destruct (distributions_image (Env := lcg_env) [] ["plots"] empty_world mixed_frame)
    as (_ & Himage & Hruns).
  pose proof (Hruns Hsave Hacc) as Hok.
  destruct (Himage ltac:(discriminate) Hok) as (axes & Hfile & _ & Hpanels).
  split_and!; [exact Hsave | exact Hacc | exact Hok |].
  exists axes. split_and!; [exact Hfile | |].
  - exact (Hpanels 0%nat "id" eq_refl).
  - exact (Hpanels 1%nat "valor" eq_refl).
Defined.

(** C8, the claim as stated fails: the directory [out/plots] is absent, its
    parent [out] too; the call raises [FileNotFoundError] and the directory is
    not created. *)
Lemma output_directory_needs_parent :
  fs empty_world !! ["out"; "plots"] = None
  ∧ (create_visualizations ["out"; "plots"] (holding [] mixed_frame, empty_world)).1
    = Raise FileNotFoundError
  ∧ fs (create_visualizations ["out"; "plots"] (holding [] mixed_frame, empty_world)).2.2
      !! ["out"; "plots"] = None.
Proof. split_and!; vm_compute; reflexivity. Qed.

(** The amended statement of C8: [plots] is created in a writable working
    directory; a completed run can be repeated; in a read-only working
    directory the call raises [PermissionError]. *)
Lemma output_directory_witness :
  fs (create_visualizations ["plots"] fresh_state).2.2 !! ["plots"] = Some (Dir true)
  ∧ (create_visualizations ["plots"]
       (create_visualizations ["plots"] (holding [] mixed_frame, empty_world)).2).1 = Ok tt
  ∧ (create_visualizations ["plots"] (holding [] mixed_frame, read_only_world)).1
    = Raise PermissionError.
Proof.
  destruct (output_directory (Env := lcg_env) ["plots"] fresh_state)
    as (Hnew & _).
  destruct (output_directory (Env := lcg_env) ["plots"] (holding [] mixed_frame, empty_world))
    as (_ & _ & Hagain & _).
  destruct (output_directory (Env := lcg_env) ["plots"] (holding [] mixed_frame, read_only_world))
    as (_ & _ & _ & _ & Hdenied).
  split_and!.
  - apply Hnew; vm_compute; reflexivity.
  - apply Hagain. vm_compute. reflexivity.
  - apply Hdenied; vm_compute; reflexivity.
Defined.

(** C9, the claim as stated fails: after a complete run on [mixed_frame] the
    working directory holds four entries, the root, [plots] and the two
    images [plots/distribuicoes.png] and [plots/categoricas.png]; there is no
    [plots/distributions.png] and no [plots/categorical.png]. *)
Lemma image_files_portuguese_names :
  (create_visualizations ["plots"] (holding [] mixed_frame, empty_world)).1 = Ok tt
  ∧ elements (dom (fs (create_visualizations ["plots"]
                         (holding [] mixed_frame, empty_world)).2.2))
    ≡ₚ [ []; ["plots"]; ["plots"; "distribuicoes.png"]; ["plots"; "categoricas.png"] ]
  ∧ fs (create_visualizations ["plots"] (holding [] mixed_frame, empty_world)).2.2
      !! ["plots"; "distributions.png"] = None
  ∧ fs (create_visualizations ["plots"] (holding [] mixed_frame, empty_world)).2.2
      !! ["plots"; "categorical.png"] = None.
Proof.
  split_and!; try (vm_compute; reflexivity).
  apply (bool_decide_unpack _). vm_compute. exact I.
Qed.

(** The amended statement of C9, at [mixed_frame]. *)
Lemma image_files_witness :
  (create_visualizations ["plots"] (holding [] mixed_frame, empty_world)).1 = Ok tt
  ∧ fs (create_visualizations ["plots"] (holding [] mixed_frame, empty_world)).2.2
      !! ["plots"; "distribuicoes.png"]
    = Some (File (Image (saved_figure (numeric_panel mixed_frame <$> numeric_cols mixed_frame))
                    300 "tight"))
  ∧ fs (create_visualizations ["plots"] (holding [] mixed_frame, empty_world)).2.2
      !! ["plots"; "categoricas.png"]
    = Some (File (Image (saved_figure
                           (categorical_panel mixed_frame <$> categorical_cols mixed_frame))
                    300 "tight")).
Proof.
  destruct (image_files (Env := lcg_env) [] ["plots"] empty_world mixed_frame)
    as (Hfiles & _ & _ & _ & Hruns).
  pose proof (Hruns (can_save_empty_world "plots") (conj eq_refl eq_refl)) as Hok.
  destruct (Hfiles Hok) as [Hdist Hcat].
  split_and!; [exact Hok | exact (Hdist ltac:(discriminate)) | exact (Hcat ltac:(discriminate))].
Defined.

(** [analyze] and [create_visualizations] on the object of [main], before
    anything is loaded. *)
Lemma cached_table_populated_witness :
  data fresh_state.1 = None
  ∧ ∃ (df : DataFrame) (s' : State),
      load_data fresh_state = (Ok df, s')
      ∧ data s'.1 = Some df
      ∧ analyze fresh_state = (Ok (analysis_of df), s')
      ∧ data (create_visualizations ["plots"] fresh_state).2.1 = Some df.
Proof.
  split; [reflexivity|].
  apply (cached_table_populated (Env := lcg_env) ["plots"] fresh_state). reflexivity.
Defined.

(** * The further statements, at concrete inputs *)

Lemma unique_columns_mixed_frame : unique_columns mixed_frame.
Proof. apply (bool_decide_unpack _). vm_compute. exact I. Qed.


(** [main] in the empty working directory, and in one where nothing may be
    created: there the report is printed and the run ends on
    [PermissionError]. *)
Example main_runs :
  length (main (Env := lcg_env) empty_world).2 = 6%nat
  ∧ size (fs (main (Env := lcg_env) empty_world).1.2.2) = 4%nat
  ∧ (main (Env := lcg_env) read_only_world).1.1 = Raise PermissionError
  ∧ length (main (Env := lcg_env) read_only_world).2 = 5%nat.
Proof. split_and!; vm_compute; reflexivity. Qed.

(** X7 at [mixed_frame]: the dtype and the missing cells of [valor]. *)
Lemma analyze_dtypes_missing_witness :
  unique_columns mixed_frame
  ∧ ∃ (r : gmap string entry) (dt : gmap string dtype) (mv : gmap string nat),
      (analyze (holding [] mixed_frame, empty_world)).1 = Ok r
      ∧ r !! "dtypes" = Some (Dtypes dt)
      ∧ r !! "missing_values" = Some (MissingValues mv)
      ∧ dt !! "valor" = Some float64
      ∧ mv !! "valor" = Some 0%nat.
Proof.
  split; [apply unique_columns_mixed_frame|].
  destruct (analyze_dtypes_missing (Env := lcg_env) [] empty_world mixed_frame
              unique_columns_mixed_frame)
    as (r & dt & mv & Hrun & Hdt & Hmv & _ & _ & Hcols).
  pose proof (Forall_lookup_1 _ _ 2%nat _ Hcols eq_refl) as (Hvalor & Hmissing & _).
  exists r, dt, mv. split_and!; [done..| exact Hvalor | exact Hmissing].
Defined.



(** X13 at [inf_frame], with the back end that refuses infinite data: no
    image is written. *)
Lemma refused_histogram_witness :
  plot_error (Environment := picky_env) (Hist (getitem inf_frame "valor") 30) = Some ValueError
  ∧ (∃ e, (create_visualizations ["plots"] (holding [] inf_frame, picky_world)).1 = Raise e)
  ∧ fs (create_visualizations ["plots"] (holding [] inf_frame, picky_world)).2.2
      !! ["plots"; "distribuicoes.png"] = None
  ∧ log (create_visualizations ["plots"] (holding [] inf_frame, picky_world)).2.2 = [].
Proof.
  split; [reflexivity|].
  destruct (refused_histogram (Env := picky_env) [] ["plots"] picky_world inf_frame
              "valor" ValueError) as (Hraise & Hdist & _ & Hlog).
  { apply elem_of_cons. by left. }
  { done. }
  { reflexivity. }
  split_and!; [exact Hraise | | exact Hlog].
  etransitivity; [exact Hdist|]. vm_compute. reflexivity.
Defined.

(** X14 at [blank_labels_frame]: the labels are all missing, the bar chart
    has no bar and is refused; the first image is there. *)
Lemma refused_bar_chart_witness :
  plot_error (Environment := lcg_env)
    (Bar (value_counts (getitem blank_labels_frame "categoria"))) = Some TypeError
  ∧ (∃ e, (create_visualizations ["plots"] (holding [] blank_labels_frame, empty_world)).1
           = Raise e)
  ∧ is_image (fs (create_visualizations ["plots"]
                    (holding [] blank_labels_frame, empty_world)).2.2
                !! ["plots"; "distribuicoes.png"]) = true
  ∧ fs (create_visualizations ["plots"] (holding [] blank_labels_frame, empty_world)).2.2
      !! ["plots"; "categoricas.png"] = None.
Proof.
  split; [reflexivity|].
  destruct (refused_bar_chart (Env := lcg_env) [] ["plots"] empty_world blank_labels_frame
              "categoria" TypeError) as (Hraise & Hdist & Hcat & _).
  { apply can_save_empty_world. }
  { reflexivity. }
  { apply elem_of_cons. by left. }
  { reflexivity. }
  split_and!; [exact Hraise | | ].
  - exact (f_equal is_image (Hdist ltac:(discriminate))).
  - etransitivity; [exact Hcat|]. vm_compute. reflexivity.
Defined.

(** X15 at [dates_frame]. *)
Lemma nothing_to_plot_witness :
  numeric_cols dates_frame = [] ∧ categorical_cols dates_frame = []
  ∧ create_visualizations ["plots"] (holding [] dates_frame, empty_world) =
      (Ok tt, (holding [] dates_frame,
               {| fs := <[ ["plots"] := Dir true ]> (fs empty_world);
                  np_random := np_random empty_world;
                  log := [(INFO, VisualizacoesSalvas ["plots"])] |})).
Proof.
  split; [reflexivity|]. split; [reflexivity|].
  apply (nothing_to_plot (Env := lcg_env) [] ["plots"] empty_world dates_frame
           (<[ ["plots"] := Dir true ]> (fs empty_world))); [reflexivity..|].
  apply mkdir_exist_ok_new; vm_compute; reflexivity.
Defined.

(** X16 at [mixed_frame]. *)
Lemma rerun_same_files_witness :
  (create_visualizations ["plots"] (holding [] mixed_frame, empty_world)).1 = Ok tt
  ∧ fs (create_visualizations ["plots"]
          (create_visualizations ["plots"] (holding [] mixed_frame, empty_world)).2).2.2
    = fs (create_visualizations ["plots"] (holding [] mixed_frame, empty_world)).2.2.
Proof.
  assert (Hok : (create_visualizations ["plots"] (holding [] mixed_frame, empty_world)).1
                = Ok tt) by (vm_compute; reflexivity).
  split; [exact Hok|].
  by rewrite (rerun_same_files (Env := lcg_env) [] ["plots"] empty_world mixed_frame Hok).
Defined.

(** X17 where a regular file is called [plots]. *)
Lemma output_path_taken_witness :
  fs world_with_plots_file !! ["plots"] = Some (File (Text "notes"))
  ∧ (create_visualizations ["plots"] (holding [] mixed_frame, world_with_plots_file)).1
    = Raise FileExistsError
  ∧ fs (create_visualizations ["plots"] (holding [] mixed_frame, world_with_plots_file)).2.2
    = fs world_with_plots_file.
Proof.
  assert (Hfile : fs world_with_plots_file !! ["plots"] = Some (File (Text "notes")))
    by (vm_compute; reflexivity).
  split; [exact Hfile|].
  destruct (output_path_taken (Env := lcg_env) ["plots"]
              (holding [] mixed_frame, world_with_plots_file) (Text "notes") (or_introl Hfile))
    as [Hraise Hfs].
  split; [|exact Hfs]. etransitivity; [exact Hraise|]. vm_compute. reflexivity.
Defined.




